(** * Signalling core of [janus.py]: session, plugin handles, poll loop

    A shallow embedding of [transaction_id], [JanusPlugin] and
    [JanusSession] of [src/janus.py].  The coroutines are state
    transformers over one store that holds the session object, the
    plugin objects it shares with the poll task, the spawned tasks and
    a log of the effects performed; the gateway, the random generator
    and the clock are oracles of an environment. *)

From Stdlib Require Import ZArith String List Bool Lia.
From stdpp Require Import base list strings pretty.
Import ListNotations.

#[local] Set Warnings "-register-all".

Local Open Scope string_scope.
Local Open Scope list_scope.

(** ** Decoded JSON values

    What [response.json()] returns and what is posted.  JSON numbers
    are integers here: the ids of the protocol are integers, and no
    line of the modelled code does arithmetic on a decoded number. *)

Inductive value : Type :=
| VNone
| VBool (b : bool)
| VInt (z : Z)
| VStr (s : string)
| VList (xs : list value)
| VDict (kvs : list (string * value)).

(** A Python [dict] with string keys, in insertion order. *)
Abbreviation dict := (list (string * value)).

Module Dict.

Section Ops.
Context {V : Type}.

(** [d.get(k)] / the lookup behind [d[k]]. *)
Fixpoint get (k : string) (d : list (string * V)) : option V :=
  match d with
  | [] => None
  | (k', v) :: d' => if String.eqb k k' then Some v else get k d'
  end.

(** [d[k] = v]: an existing key keeps its place, a new one goes last. *)
Fixpoint assign (k : string) (v : V) (d : list (string * V)) : list (string * V) :=
  match d with
  | [] => [(k, v)]
  | (k', v') :: d' =>
      if String.eqb k k' then (k', v) :: d' else (k', v') :: assign k v d'
  end.

(** [d.update(p)]: every item of [p] assigned in turn. *)
Definition update (d p : list (string * V)) : list (string * V) :=
  fold_left (fun acc kv => assign (fst kv) (snd kv) acc) p d.

Definition keys (d : list (string * V)) : list string := map fst d.
End Ops.

End Dict.

(** ** Python's [==] on decoded values

    [True == 1] and [False == 0] hold; dictionaries compare without
    regard to order. *)

Fixpoint py_eq (a b : value) {struct a} : bool :=
  match a with
  | VNone => match b with VNone => true | _ => false end
  | VBool x =>
      match b with
      | VBool y => Bool.eqb x y
      | VInt y => Z.eqb (Z.b2z x) y
      | _ => false
      end
  | VInt x =>
      match b with
      | VInt y => Z.eqb x y
      | VBool y => Z.eqb x (Z.b2z y)
      | _ => false
      end
  | VStr x => match b with VStr y => String.eqb x y | _ => false end
  | VList xs =>
      match b with
      | VList ys =>
          (fix all2 (l : list value) (r : list value) {struct l} : bool :=
             match l, r with
             | [], [] => true
             | x :: l', y :: r' => py_eq x y && all2 l' r'
             | _, _ => false
             end) xs ys
      | _ => false
      end
  | VDict kvs =>
      match b with
      | VDict kvs' =>
          Nat.eqb (length kvs) (length kvs')
          && (fix every (l : list (string * value)) {struct l} : bool :=
                match l with
                | [] => true
                | (k, v) :: l' =>
                    match Dict.get k kvs' with
                    | Some v' => py_eq v v'
                    | None => false
                    end && every l'
                end) kvs
      | _ => false
      end
  end.

(** Lists and dicts are unhashable: they cannot be dictionary keys. *)
Definition hashable (v : value) : bool :=
  match v with
  | VList _ | VDict _ => false
  | _ => true
  end.

(** ** Exceptions and results *)

Inductive exn : Type :=
| AssertionError
| KeyError (k : string)
| TypeError
| AttributeError
| ClientError (code : nat).   (* raised by the HTTP client *)

Inductive result (A : Type) : Type :=
| Ok (a : A)
| Raise (e : exn).
Arguments Ok {A} a.
Arguments Raise {A} e.

(** [data[k]] for a string key: only a dict can be indexed that way. *)
Definition subscript (data : value) (k : string) : result value :=
  match data with
  | VDict d =>
      match Dict.get k d with
      | Some v => Ok v
      | None => Raise (KeyError k)
      end
  | _ => Raise TypeError
  end.

(** ** The environment

    Everything the module reads from outside: what the gateway answers
    to the n-th POST and to the n-th long-poll GET, what
    [transaction_id()] draws the n-th time, what the clock shows.  The
    properties below hold for every environment. *)

Inductive reply : Type :=
| Refused (code : nat)     (* the request or the decoding of its body fails *)
| Json (data : value).     (* [await response.json()] *)

Record Env : Type := {
  rng : nat -> string;          (* [transaction_id()], call by call *)
  post_reply : nat -> reply;    (* answer to the n-th POST *)
  get_reply : nat -> reply;     (* answer to the n-th GET *)
  clock : nat -> Z;             (* [int(time.time() * 1000)], read by read *)
  repr : value -> string        (* [str] of a list or dict *)
}.

(** [str(v)]. *)
Definition py_str (E : Env) (v : value) : string :=
  match v with
  | VNone => "None"
  | VBool true => "True"
  | VBool false => "False"
  | VInt z => pretty z
  | VStr s => s
  | _ => repr E v
  end.

(** ** The store *)

(** A [JanusPlugin] object.  [_session] is the one session of the store. *)
Record JanusPlugin : Type := {
  _queue : list value;     (* asyncio.Queue(), oldest item first *)
  _url : string
}.

(** A task made by [asyncio.ensure_future(self._poll())]. *)
Inductive task_state : Type :=
| Running
| Cancelled
| Crashed (e : exn).

Inductive effect : Type :=
| EOpen (c : nat)                             (* aiohttp.ClientSession() *)
| EPost (c : nat) (url : string) (body : dict)
| EGet (c : nat) (url : string) (maxev rid : Z)
| EClose (c : nat)
| ESpawn (t : nat)
| ECancel (t : nat)
| EPrint (data : value).

(** The fields of [JanusSession], then the objects it refers to. *)
Record state : Type := {
  _http : option nat;               (* the client object, by number *)
  _poll_task : option nat;          (* index into [tasks] *)
  _plugins : list (value * nat);    (* plugin id -> index into [heap] *)
  _root_url : string;
  _session_url : option string;
  heap : list JanusPlugin;
  tasks : list task_state;
  log : list effect;
  n_id : nat;                       (* calls of [transaction_id] so far *)
  n_post : nat;
  n_get : nat;
  n_http : nat                      (* clients opened so far *)
}.

(** [JanusSession.__init__(url)], in a fresh store. *)
Definition init (url : string) : state :=
  {| _http := None; _poll_task := None; _plugins := []; _root_url := url;
     _session_url := None; heap := []; tasks := []; log := [];
     n_id := 0; n_post := 0; n_get := 0; n_http := 0 |}.

Definition set_http (x : option nat) (s : state) : state :=
  {| _http := x; _poll_task := _poll_task s; _plugins := _plugins s;
     _root_url := _root_url s; _session_url := _session_url s;
     heap := heap s; tasks := tasks s; log := log s; n_id := n_id s;
     n_post := n_post s; n_get := n_get s; n_http := n_http s |}.

Definition set_poll_task (x : option nat) (s : state) : state :=
  {| _http := _http s; _poll_task := x; _plugins := _plugins s;
     _root_url := _root_url s; _session_url := _session_url s;
     heap := heap s; tasks := tasks s; log := log s; n_id := n_id s;
     n_post := n_post s; n_get := n_get s; n_http := n_http s |}.

Definition set_plugins (x : list (value * nat)) (s : state) : state :=
  {| _http := _http s; _poll_task := _poll_task s; _plugins := x;
     _root_url := _root_url s; _session_url := _session_url s;
     heap := heap s; tasks := tasks s; log := log s; n_id := n_id s;
     n_post := n_post s; n_get := n_get s; n_http := n_http s |}.

Definition set_session_url (x : option string) (s : state) : state :=
  {| _http := _http s; _poll_task := _poll_task s; _plugins := _plugins s;
     _root_url := _root_url s; _session_url := x;
     heap := heap s; tasks := tasks s; log := log s; n_id := n_id s;
     n_post := n_post s; n_get := n_get s; n_http := n_http s |}.

Definition set_heap (x : list JanusPlugin) (s : state) : state :=
  {| _http := _http s; _poll_task := _poll_task s; _plugins := _plugins s;
     _root_url := _root_url s; _session_url := _session_url s;
     heap := x; tasks := tasks s; log := log s; n_id := n_id s;
     n_post := n_post s; n_get := n_get s; n_http := n_http s |}.

Definition set_tasks (x : list task_state) (s : state) : state :=
  {| _http := _http s; _poll_task := _poll_task s; _plugins := _plugins s;
     _root_url := _root_url s; _session_url := _session_url s;
     heap := heap s; tasks := x; log := log s; n_id := n_id s;
     n_post := n_post s; n_get := n_get s; n_http := n_http s |}.

Definition emit (e : effect) (s : state) : state :=
  {| _http := _http s; _poll_task := _poll_task s; _plugins := _plugins s;
     _root_url := _root_url s; _session_url := _session_url s;
     heap := heap s; tasks := tasks s; log := log s ++ [e]; n_id := n_id s;
     n_post := n_post s; n_get := n_get s; n_http := n_http s |}.

Definition tick_id (s : state) : state :=
  {| _http := _http s; _poll_task := _poll_task s; _plugins := _plugins s;
     _root_url := _root_url s; _session_url := _session_url s;
     heap := heap s; tasks := tasks s; log := log s; n_id := S (n_id s);
     n_post := n_post s; n_get := n_get s; n_http := n_http s |}.

Definition tick_post (s : state) : state :=
  {| _http := _http s; _poll_task := _poll_task s; _plugins := _plugins s;
     _root_url := _root_url s; _session_url := _session_url s;
     heap := heap s; tasks := tasks s; log := log s; n_id := n_id s;
     n_post := S (n_post s); n_get := n_get s; n_http := n_http s |}.

Definition tick_get (s : state) : state :=
  {| _http := _http s; _poll_task := _poll_task s; _plugins := _plugins s;
     _root_url := _root_url s; _session_url := _session_url s;
     heap := heap s; tasks := tasks s; log := log s; n_id := n_id s;
     n_post := n_post s; n_get := S (n_get s); n_http := n_http s |}.

Definition tick_http (s : state) : state :=
  {| _http := _http s; _poll_task := _poll_task s; _plugins := _plugins s;
     _root_url := _root_url s; _session_url := _session_url s;
     heap := heap s; tasks := tasks s; log := log s; n_id := n_id s;
     n_post := n_post s; n_get := n_get s; n_http := S (n_http s) |}.

(** ** Coroutines as state transformers that may raise

    A raise keeps the changes made before it, as in Python. *)

Definition M (A : Type) : Type := state -> result A * state.

Definition ret {A} (a : A) : M A := fun s => (Ok a, s).
Definition raise {A} (e : exn) : M A := fun s => (Raise e, s).
Definition bind {A B} (m : M A) (k : A -> M B) : M B :=
  fun s => match m s with
           | (Ok a, s') => k a s'
           | (Raise e, s') => (Raise e, s')
           end.
Definition gets {A} (f : state -> A) : M A := fun s => (Ok (f s), s).
Definition modify (f : state -> state) : M unit := fun s => (Ok tt, f s).
Definition lift {A} (r : result A) : M A := fun s => (r, s).

Declare Scope py_scope.
Delimit Scope py_scope with py.
Notation "x <- m ;; k" := (bind m (fun x => k))
  (at level 100, m at next level, right associativity) : py_scope.
Notation "m ;;; k" := (bind m (fun _ => k))
  (at level 100, right associativity) : py_scope.
Local Open Scope py_scope.

(** [assert c], taken as executed (the interpreter is not run with -O). *)
Definition py_assert (c : bool) : M unit :=
  if c then ret tt else raise AssertionError.

(** ** The plugin registry [self._plugins]

    A dict keyed by whatever id the gateway returned; keys are matched
    with [==].  Both operations raise [TypeError] on an unhashable key. *)

Module Registry.

(** [plugins.get(k, None)], once [k] is known to be hashable. *)
Fixpoint find (k : value) (r : list (value * nat)) : option nat :=
  match r with
  | [] => None
  | (k', h) :: r' => if py_eq k k' then Some h else find k r'
  end.

(** [plugins[k] = h], once [k] is known to be hashable. *)
Fixpoint store (k : value) (h : nat) (r : list (value * nat)) : list (value * nat) :=
  match r with
  | [] => [(k, h)]
  | (k', h') :: r' =>
      if py_eq k k' then (k', h) :: r' else (k', h') :: store k h r'
  end.

Definition get (k : value) (r : list (value * nat)) : result (option nat) :=
  if hashable k then Ok (find k r) else Raise TypeError.

Definition setitem (k : value) (h : nat) (r : list (value * nat))
  : result (list (value * nat)) :=
  if hashable k then Ok (store k h r) else Raise TypeError.

End Registry.

Section Janus.
Variable E : Env.

(** ** Primitives *)

(** [transaction_id()]: the next draw of the generator. *)
Definition transaction_id : M string :=
  fun s => (Ok (rng E (n_id s)), tick_id s).

(** [async with self._http.post(url, json=body) as response:
       data = await response.json()].
    [self._http] is read first; [None] has no attribute [post].  A URL
    that is [None] is refused by the client before anything is sent. *)
Definition http_post (url : option string) (body : dict) : M value :=
  fun s =>
    match _http s with
    | None => (Raise AttributeError, s)
    | Some c =>
        match url with
        | None => (Raise TypeError, s)
        | Some u =>
            let s' := tick_post (emit (EPost c u body) s) in
            match post_reply E (n_post s) with
            | Refused code => (Raise (ClientError code), s')
            | Json data => (Ok data, s')
            end
        end
    end.

(** The same for [self._http.get(url, params={"maxev": .., "rid": ..})]. *)
Definition http_get (url : option string) (maxev rid : Z) : M value :=
  fun s =>
    match _http s with
    | None => (Raise AttributeError, s)
    | Some c =>
        match url with
        | None => (Raise TypeError, s)
        | Some u =>
            let s' := tick_get (emit (EGet c u maxev rid) s) in
            match get_reply E (n_get s) with
            | Refused code => (Raise (ClientError code), s')
            | Json data => (Ok data, s')
            end
        end
    end.

Definition print (data : value) : M unit := modify (emit (EPrint data)).

(** An object reference is always live in Python; a number that is not
    in the heap stands for no object, and reaching through it raises. *)
Definition deref (h : nat) : M JanusPlugin :=
  fun s => match heap s !! h with
           | Some p => (Ok p, s)
           | None => (Raise AttributeError, s)
           end.

Definition set_queue (h : nat) (q : list value) (s : state) : state :=
  match heap s !! h with
  | Some p => set_heap (<[h := {| _queue := q; _url := _url p |}]> (heap s)) s
  | None => s
  end.

(** [await plugin._queue.put(data)]: the queue is unbounded, so the put
    never waits. *)
Definition queue_put (h : nat) (data : value) : M unit :=
  p <- deref h ;;
  modify (set_queue h (_queue p ++ [data])).

(** [JanusPlugin(self, url)]: a new object with an empty queue. *)
Definition new_plugin (url : string) : M nat :=
  fun s => (Ok (length (heap s)),
            set_heap (heap s ++ [{| _queue := []; _url := url |}]) s).

(** Truth value of [self._session_url]: [None] and [""] are false. *)
Definition truthy (u : option string) : bool :=
  match u with
  | None => false
  | Some u => negb (String.eqb u "")
  end.

(** [task.cancel()]: a task that is still running stops; one that is
    done is left as it is. *)
Definition cancel (t : nat) (s : state) : state :=
  emit (ECancel t)
    (match tasks s !! t with
     | Some Running => set_tasks (<[t := Cancelled]> (tasks s)) s
     | _ => s
     end).

(** [asyncio.ensure_future(self._poll())]. *)
Definition ensure_future : M nat :=
  fun s => let t := length (tasks s) in
           (Ok t, emit (ESpawn t) (set_tasks (tasks s ++ [Running]) s)).

(** ** [JanusPlugin.send]

    The coroutine up to its second [await], then from it. *)

(** Lines 85-86: the envelope, with the payload merged in last. *)
Definition envelope (tid : string) (payload : dict) : dict :=
  Dict.update [("janus", VStr "message"); ("transaction", VStr tid)] payload.

(** Lines 85-89. *)
Definition send_post (h : nat) (payload : dict) : M dict :=
  tid <- transaction_id ;;
  let message := envelope tid payload in
  self <- deref h ;;
  data <- http_post (Some (_url self)) message ;;
  j <- lift (subscript data "janus") ;;
  py_assert (py_eq j (VStr "ack")) ;;;
  ret message.

(** Lines 91-93, once the queue has an item; [None] while it is empty
    and the coroutine stays suspended in [get()]. *)
Definition send_recv (h : nat) (message : dict) (s : state)
  : option (result value * state) :=
  match heap s !! h with
  | Some self =>
      match _queue self with
      | [] => None
      | response :: rest =>
          Some ((t <- lift (subscript response "transaction") ;;
                 t' <- lift (subscript (VDict message) "transaction") ;;
                 py_assert (py_eq t t') ;;;
                 ret response) (set_queue h rest s))
      end
  | None => Some (Raise AttributeError, s)
  end.

(** ** [JanusSession] *)

(** Lines 104-116. *)
Definition attach (plugin_name : string) : M nat :=
  tid <- transaction_id ;;
  let message := [("janus", VStr "attach"); ("plugin", VStr plugin_name);
                  ("transaction", VStr tid)] in
  url <- gets _session_url ;;
  data <- http_post url message ;;
  j <- lift (subscript data "janus") ;;
  py_assert (py_eq j (VStr "success")) ;;;
  d <- lift (subscript data "data") ;;
  plugin_id <- lift (subscript d "id") ;;
  url <- gets _session_url ;;
  match url with
  | None => raise TypeError          (* None + "/" *)
  | Some u =>
      plugin <- new_plugin (u +:+ "/" +:+ py_str E plugin_id) ;;
      reg <- gets _plugins ;;
      reg' <- lift (Registry.setitem plugin_id plugin reg) ;;
      modify (set_plugins reg') ;;;
      ret plugin
  end.

(** Lines 118-127. *)
Definition create : M unit :=
  c <- gets n_http ;;
  modify (fun s => set_http (Some c) (tick_http (emit (EOpen c) s))) ;;;
  tid <- transaction_id ;;
  let message := [("janus", VStr "create"); ("transaction", VStr tid)] in
  root <- gets _root_url ;;
  data <- http_post (Some root) message ;;
  j <- lift (subscript data "janus") ;;
  py_assert (py_eq j (VStr "success")) ;;;
  d <- lift (subscript data "data") ;;
  session_id <- lift (subscript d "id") ;;
  modify (set_session_url (Some (root +:+ "/" +:+ py_str E session_id))) ;;;
  t <- ensure_future ;;
  modify (set_poll_task (Some t)).

(** Lines 130-132: [if self._poll_task: ...]; a task object is true. *)
Definition stop_poll : M unit :=
  pt <- gets _poll_task ;;
  match pt with
  | Some t => modify (cancel t) ;;; modify (set_poll_task None)
  | None => ret tt
  end.

(** Lines 134-139: [if self._session_url: ...]. *)
Definition destroy_remote : M unit :=
  url <- gets _session_url ;;
  if truthy url then
    tid <- transaction_id ;;
    let message := [("janus", VStr "destroy"); ("transaction", VStr tid)] in
    data <- http_post url message ;;
    j <- lift (subscript data "janus") ;;
    py_assert (py_eq j (VStr "success")) ;;;
    modify (set_session_url None)
  else ret tt.

(** Lines 141-143: [if self._http: ...]; a client object is true. *)
Definition close_http : M unit :=
  c <- gets _http ;;
  match c with
  | Some c => modify (emit (EClose c)) ;;; modify (set_http None)
  | None => ret tt
  end.

(** Lines 129-143: the three statements in sequence, so that a raise
    in one skips those after it. *)
Definition destroy : M unit :=
  stop_poll ;;; destroy_remote ;;; close_http.

(** Lines 147-156: one turn of the [while True] of [_poll]. *)
Definition poll_once : M unit :=
  rid <- gets (fun s => clock E (n_get s)) ;;
  url <- gets _session_url ;;
  data <- http_get url 1 rid ;;
  print data ;;;
  j <- lift (subscript data "janus") ;;
  if py_eq j (VStr "event") then
    sender <- lift (subscript data "sender") ;;
    reg <- gets _plugins ;;
    plugin <- lift (Registry.get sender reg) ;;
    match plugin with
    | Some h => queue_put h data      (* a plugin object is always true *)
    | None => print data
    end
  else ret tt.

(** The task [t] runs one turn of its loop, when it is still running;
    an exception that leaves the loop ends the task. *)
Definition poll_step (t : nat) (s : state) : state :=
  match tasks s !! t with
  | Some Running =>
      match poll_once s with
      | (Ok _, s') => s'
      | (Raise e, s') => set_tasks (<[t := Crashed e]> (tasks s')) s'
      end
  | _ => s
  end.

(** [_poll] for at most [n] turns. *)
Fixpoint _poll (n : nat) (t : nat) (s : state) : state :=
  match n with
  | O => s
  | S n' => _poll n' t (poll_step t s)
  end.

End Janus.

(** ** A call of [send] on the event loop

    While [send] is suspended in [self._queue.get()] the loop runs the
    other tasks: [sched] names the poll task that gets each next turn.
    Turns that complete while the POST is in flight touch nothing that
    lines 85-89 read or write, so they are turns before the call. *)

Inductive outcome : Type :=
| Returned (r : value)
| Raised (e : exn)
| Pending.                 (* still suspended when [sched] is used up *)

Fixpoint await_inbox (E : Env) (sched : list nat) (h : nat) (message : dict)
    (s : state) : outcome * state :=
  match send_recv h message s with
  | Some (Ok r, s') => (Returned r, s')
  | Some (Raise e, s') => (Raised e, s')
  | None =>
      match sched with
      | [] => (Pending, s)
      | t :: sched' => await_inbox E sched' h message (poll_step E t s)
      end
  end.

Definition send (E : Env) (h : nat) (payload : dict) (sched : list nat)
    (s : state) : outcome * state :=
  match send_post E h payload s with
  | (Ok message, s') => await_inbox E sched h message s'
  | (Raise e, s') => (Raised e, s')
  end.

(** The poll tasks named by [ts] take one turn each, in that order. *)
Definition polls (E : Env) (ts : list nat) (s : state) : state :=
  fold_left (fun s t => poll_step E t s) ts s.

(** ** Histories

    What a client and the event loop can do to a store, one step at a
    time; a raise ends the call and leaves the store as it then is. *)

Inductive action : Type :=
| ACreate
| AAttach (plugin_name : string)
| ADestroy
| APoll (t : nat)
| ASendPost (h : nat) (payload : dict)
| ASendRecv (h : nat) (message : dict).

Definition exec (E : Env) (a : action) (s : state) : state :=
  match a with
  | ACreate => snd (create E s)
  | AAttach name => snd (attach E name s)
  | ADestroy => snd (destroy E s)
  | APoll t => poll_step E t s
  | ASendPost h payload => snd (send_post E h payload s)
  | ASendRecv h message =>
      match send_recv h message s with
      | Some (_, s') => s'
      | None => s
      end
  end.

Definition run (E : Env) (acts : list action) (s : state) : state :=
  fold_left (fun s a => exec E a s) acts s.

Definition reachable (E : Env) (url : string) (s : state) : Prop :=
  exists acts, s = run E acts (init url).

(** ** Calls that wait while the poll loop runs

    A call of the session is suspended while its request is with the
    gateway (lines 110-111, 121-122 and 136-137) and while the client
    closes (line 142).  The event loop runs the poll tasks meanwhile:
    [turns] names the tasks that complete a turn of their loop before
    the call goes on. *)

Section Suspended.
Variable E : Env.

(** [request], and the turns taken until it is back. *)
Definition awaited {A} (turns : list nat) (request : M A) : M A :=
  fun s => let (r, s') := request s in (r, polls E turns s').

(** Lines 105-111: the request of [attach]. *)
Definition attach_request (plugin_name : string) : M value :=
  tid <- transaction_id E ;;
  let message := [("janus", VStr "attach"); ("plugin", VStr plugin_name);
                  ("transaction", VStr tid)] in
  url <- gets _session_url ;;
  http_post E url message.

(** Lines 112-116: [attach] from the reply on. *)
Definition attach_register (data : value) : M nat :=
  j <- lift (subscript data "janus") ;;
  py_assert (py_eq j (VStr "success")) ;;;
  d <- lift (subscript data "data") ;;
  plugin_id <- lift (subscript d "id") ;;
  url <- gets _session_url ;;
  match url with
  | None => raise TypeError          (* None + "/" *)
  | Some u =>
      plugin <- new_plugin (u +:+ "/" +:+ py_str E plugin_id) ;;
      reg <- gets _plugins ;;
      reg' <- lift (Registry.setitem plugin_id plugin reg) ;;
      modify (set_plugins reg') ;;;
      ret plugin
  end.

Definition attach_across (plugin_name : string) (turns : list nat) : M nat :=
  data <- awaited turns (attach_request plugin_name) ;;
  attach_register data.

(** Lines 119-122: the client and the request of [create]. *)
Definition create_request : M value :=
  c <- gets n_http ;;
  modify (fun s => set_http (Some c) (tick_http (emit (EOpen c) s))) ;;;
  tid <- transaction_id E ;;
  let message := [("janus", VStr "create"); ("transaction", VStr tid)] in
  root <- gets _root_url ;;
  http_post E (Some root) message.

(** Lines 123-127: [create] from the reply on. *)
Definition create_finish (data : value) : M unit :=
  j <- lift (subscript data "janus") ;;
  py_assert (py_eq j (VStr "success")) ;;;
  d <- lift (subscript data "data") ;;
  session_id <- lift (subscript d "id") ;;
  root <- gets _root_url ;;
  modify (set_session_url (Some (root +:+ "/" +:+ py_str E session_id))) ;;;
  t <- ensure_future ;;
  modify (set_poll_task (Some t)).

Definition create_across (turns : list nat) : M unit :=
  data <- awaited turns create_request ;;
  create_finish data.

(** Lines 135-137: the request of [destroy]. *)
Definition destroy_request (url : option string) : M value :=
  tid <- transaction_id E ;;
  let message := [("janus", VStr "destroy"); ("transaction", VStr tid)] in
  http_post E url message.

(** Lines 134-139. *)
Definition destroy_remote_across (turns : list nat) : M unit :=
  url <- gets _session_url ;;
  if truthy url then
    data <- awaited turns (destroy_request url) ;;
    j <- lift (subscript data "janus") ;;
    py_assert (py_eq j (VStr "success")) ;;;
    modify (set_session_url None)
  else ret tt.

(** Lines 141-143, suspended in [close()]. *)
Definition close_http_across (turns : list nat) : M unit :=
  c <- gets _http ;;
  match c with
  | Some c => awaited turns (modify (emit (EClose c))) ;;; modify (set_http None)
  | None => ret tt
  end.

(** Lines 129-143. *)
Definition destroy_across (turns turns' : list nat) : M unit :=
  stop_poll ;;; destroy_remote_across turns ;;; close_http_across turns'.

End Suspended.

(** The steps of a history in which the calls of the session wait:
    [create], [attach] and [destroy] with the turns taken in their
    awaits, a turn of a poll task between calls, and the two halves of
    [send]. *)
Inductive move : Type :=
| MCreate (turns : list nat)
| MAttach (plugin_name : string) (turns : list nat)
| MDestroy (turns turns' : list nat)
| MPoll (t : nat)
| MSendPost (h : nat) (payload : dict)
| MSendRecv (h : nat) (message : dict).

Definition exec_move (E : Env) (m : move) (s : state) : state :=
  match m with
  | MCreate turns => snd (create_across E turns s)
  | MAttach name turns => snd (attach_across E name turns s)
  | MDestroy turns turns' => snd (destroy_across E turns turns' s)
  | MPoll t => exec E (APoll t) s
  | MSendPost h payload => exec E (ASendPost h payload) s
  | MSendRecv h message => exec E (ASendRecv h message) s
  end.

Definition run_moves (E : Env) (hist : list move) (s : state) : state :=
  fold_left (fun s m => exec_move E m s) hist s.

(** A step of [exec] is the move that no turn interrupts. *)
Definition plain (a : action) : move :=
  match a with
  | ACreate => MCreate []
  | AAttach name => MAttach name []
  | ADestroy => MDestroy [] []
  | APoll t => MPoll t
  | ASendPost h payload => MSendPost h payload
  | ASendRecv h message => MSendRecv h message
  end.

(** ** A scripted gateway, for the scenarios of the specification *)

Module Mock.

Definition T (n : nat) : string :=
  match n with
  | 0 => "aaaaaaaaaaaa"
  | 1 => "bbbbbbbbbbbb"
  | 2 => "cccccccccccc"
  | 3 => "dddddddddddd"
  | 4 => "eeeeeeeeeeee"
  | _ => "ffffffffffff"
  end.

Definition success (id : Z) : value :=
  VDict [("janus", VStr "success"); ("data", VDict [("id", VInt id)])].

Definition ack : value := VDict [("janus", VStr "ack")].

Definition event (sender : value) (transaction : string) : value :=
  VDict [("janus", VStr "event"); ("sender", sender);
         ("transaction", VStr transaction); ("result", VStr "pong")].

Definition keepalive : value := VDict [("janus", VStr "keepalive")].

Definition env (posts polls : list reply) : Env :=
  {| rng := T;
     post_reply := fun n => nth n posts (Refused 503);
     get_reply := fun n => nth n polls (Json keepalive);
     clock := fun n => (1000 * Z.of_nat n)%Z;
     repr := fun _ => "" |}.

(** Session 1, plugin 10, one message acknowledged and answered. *)
Definition echo : Env :=
  env [Json (success 1); Json (success 10); Json ack]
      [Json (event (VInt 10) (T 2))].

Definition root : string := "http://localhost:8088/janus".

End Mock.

(** Stores of the scenarios. *)
Module Scenario.

(** After [create()] and [attach("echo")] against [Mock.echo]. *)
Definition attached : state :=
  snd (attach Mock.echo "echo" (snd (create Mock.echo (init Mock.root)))).

(** A gateway that answers a message carrying its own "transaction". *)
Definition forged : Env :=
  Mock.env [Json (Mock.success 1); Json (Mock.success 10); Json Mock.ack]
           [Json (Mock.event (VInt 10) "X")].

Definition forged_attached : state :=
  snd (attach forged "echo" (snd (create forged (init Mock.root)))).

(** A gateway that answers the message with an error, not an ack. *)
Definition nack : Env :=
  Mock.env [Json (Mock.success 1); Json (Mock.success 10);
            Json (VDict [("janus", VStr "error")])] [].

Definition nack_attached : state :=
  snd (attach nack "echo" (snd (create nack (init Mock.root)))).

(** A gateway whose first event names no sender. *)
Definition senderless : Env :=
  Mock.env [Json (Mock.success 1); Json (Mock.success 10)]
           [Json (VDict [("janus", VStr "event"); ("transaction", VStr "T")])].

Definition senderless_attached : state :=
  snd (attach senderless "echo" (snd (create senderless (init Mock.root)))).

(** A gateway that also confirms the destroy. *)
Definition teardown : Env :=
  Mock.env [Json (Mock.success 1); Json (Mock.success 10);
            Json (VDict [("janus", VStr "success")])] [].

Definition teardown_attached : state :=
  snd (attach teardown "echo" (snd (create teardown (init Mock.root)))).

Definition torn_down : state := snd (destroy teardown teardown_attached).

(** Two plugins, 10 and 20, each sent one message; the answer for
    plugin 20 comes first. *)
Definition pair : Env :=
  Mock.env [Json (Mock.success 1); Json (Mock.success 10);
            Json (Mock.success 20); Json Mock.ack; Json Mock.ack]
           [Json (Mock.event (VInt 20) (Mock.T 4));
            Json (Mock.event (VInt 10) (Mock.T 3))].

Definition pair_answered : state :=
  run pair [ACreate; AAttach "a"; AAttach "b";
            ASendPost 0 [("ping", VInt 1)]; ASendPost 1 [("ping", VInt 2)];
            APoll 0; APoll 0] (init Mock.root).

(** A gateway that sends an event of plugin 99, which nobody attached,
    and then one of plugin 10. *)
Definition orphan : Env :=
  Mock.env [Json (Mock.success 1); Json (Mock.success 10)]
           [Json (Mock.event (VInt 99) "T"); Json (Mock.event (VInt 10) "U")].

Definition orphan_attached : state :=
  snd (attach orphan "echo" (snd (create orphan (init Mock.root)))).

(** A gateway whose event has a list for sender. *)
Definition listed : Env :=
  Mock.env [Json (Mock.success 1); Json (Mock.success 10)]
           [Json (Mock.event (VList [VInt 10]) "T")].

Definition listed_attached : state :=
  snd (attach listed "echo" (snd (create listed (init Mock.root)))).

End Scenario.

(** The reply's [janus] field is there and equals [kind]: what the
    asserts of lines 89, 112, 123 and 138 and the test of line 151 ask. *)
Definition janus_is (kind : string) (data : value) : bool :=
  match subscript data "janus" with
  | Ok j => py_eq j (VStr kind)
  | Raise _ => false
  end.

(** ** The session invariant *)

(** The poll task [t] is running. *)
Definition live (s : state) (t : nat) : Prop := tasks s !! t = Some Running.

(** "[sessionURL] is non-null iff a poll loop is running; exactly one
    poll loop per active session." *)
Definition session_inv (s : state) : Prop :=
  (_session_url s <> None <-> exists t, live s t) /\
  (forall t t', live s t -> live s t' -> t = t').

(** The calls a client makes on the session. *)
Definition public (a : action) : Prop :=
  match a with
  | ACreate | AAttach _ | ADestroy => True
  | _ => False
  end.

(** The remote destroy fails: the POST is refused, or its reply is not
    a success. *)
Definition post_fails (E : Env) (s : state) : Prop :=
  match post_reply E (n_post s) with
  | Refused _ => True
  | Json data => janus_is "success" data = false
  end.

(** ** The inboxes *)

(** The registry refers to objects of the heap, each under one id. *)
Definition registry_ok (s : state) : Prop :=
  (forall k h, (k, h) ∈ _plugins s -> h < length (heap s)) /\
  NoDup (snd <$> _plugins s).

(** "Every item ever placed in [inbox] was sent by the gateway for
    this handle's plugin id": the handle registered under [P] holds
    only items whose "sender" is [P], in the sense of [==]. *)
Definition inbox_ok (s : state) : Prop :=
  forall P h p x,
    (P, h) ∈ _plugins s -> heap s !! h = Some p -> x ∈ _queue p ->
    exists sender, subscript x "sender" = Ok sender /\ py_eq sender P = true.

(** The sender is the id of no registered plugin. *)
Definition unregistered (sender : value) (s : state) : Prop :=
  forall k h, (k, h) ∈ _plugins s -> py_eq sender k = false.

(** ** Histories, by how they use the session *)

Definition is_ok {A} (r : result A) : bool :=
  match r with Ok _ => true | Raise _ => false end.

Definition is_running (st : task_state) : bool :=
  match st with Running => true | _ => false end.

(** No poll loop is running. *)
Definition idle (s : state) : bool :=
  forallb (fun st => negb (is_running st)) (tasks s).

(** A [create] that returns was called while no poll loop was
    running. *)
Definition allowed (E : Env) (m : move) (s : state) : bool :=
  match m with
  | MCreate turns => implb (is_ok (fst (create_across E turns s))) (idle s)
  | _ => true
  end.

Fixpoint creates_when_idle (E : Env) (hist : list move) (s : state) : bool :=
  match hist with
  | [] => true
  | m :: hist' => allowed E m s && creates_when_idle E hist' (exec_move E m s)
  end.

(** No [destroy] has raised since the last [create] or [destroy] that
    returned; [before] says so of the history up to [s]. *)
Definition settles (E : Env) (m : move) (s : state) (before : bool) : bool :=
  match m with
  | MCreate turns => is_ok (fst (create_across E turns s)) || before
  | MDestroy turns turns' => is_ok (fst (destroy_across E turns turns' s))
  | _ => before
  end.

Fixpoint settled (E : Env) (hist : list move) (s : state) (before : bool)
  : bool :=
  match hist with
  | [] => before
  | m :: hist' => settled E hist' (exec_move E m s) (settles E m s before)
  end.

(** The task [self._poll_task] refers to has ended on an exception. *)
Definition poll_task_crashed (s : state) : bool :=
  match _poll_task s with
  | Some t =>
      match tasks s !! t with
      | Some (Crashed _) => true
      | _ => false
      end
  | None => false
  end.

(** [s'] has the session URL and the poll task of [s], and its tasks
    but for running ones that have ended on an exception. *)
Definition worn (s s' : state) : Prop :=
  _session_url s' = _session_url s /\
  _poll_task s' = _poll_task s /\
  forall t, tasks s' !! t = tasks s !! t \/
            (live s t /\ exists e, tasks s' !! t = Some (Crashed e)).

(** What the session keeps along a history that calls [create] only
    as allowed; [ok] is whether the history is settled. *)
Definition session_state (ok : bool) (s : state) : Prop :=
  (forall t, live s t -> _poll_task s = Some t /\ _session_url s <> None) /\
  _session_url s <> Some "" /\
  (_poll_task s <> None -> _session_url s <> None) /\
  (ok = true -> _session_url s <> None ->
   exists t, _poll_task s = Some t /\
             (live s t \/ exists e, tasks s !! t = Some (Crashed e))) /\
  (ok = false -> _session_url s <> None /\ _poll_task s = None).

(** ** The sentences of the specification that the code does not meet,
    as they are written *)

(** "Each call returns the event whose transaction equals the token
    generated for that call." *)
Definition correlation_as_stated : Prop :=
  forall E h payload sched s r s',
    send E h payload sched s = (Returned r, s') ->
    exists t, subscript r "transaction" = Ok t /\
              py_eq t (VStr (rng E (n_id s))) = true.

(** "If the remote destroy HTTP call fails, the poll loop is still
    cancelled and the transport is still closed." *)
Definition teardown_as_stated : Prop :=
  forall E s c t,
    _http s = Some c ->
    _poll_task s = Some t ->
    truthy (_session_url s) = true ->
    post_fails E s ->
    let s' := snd (destroy E s) in
    ~ live s' t /\ _poll_task s' = None /\
    _http s' = None /\ In (EClose c) (log s').

(** "After every complete public Session operation, [sessionURL] is
    non-null iff a poll loop is running, and there is at most one." *)
Definition invariant_as_stated : Prop :=
  forall E url acts,
    Forall public acts -> session_inv (run E acts (init url)).

(** "An event with an unknown sender does not crash or stall the poll
    loop." *)
Definition orphan_as_stated : Prop :=
  forall E t s c u data sender,
    live s t ->
    _http s = Some c ->
    _session_url s = Some u ->
    get_reply E (n_get s) = Json data ->
    janus_is "event" data = true ->
    subscript data "sender" = Ok sender ->
    unregistered sender s ->
    live (poll_step E t s) t /\ heap (poll_step E t s) = heap s.

(** A gateway that creates session 1 and refuses what follows. *)
Module Outage.

Definition env : Env := Mock.env [Json (Mock.success 1)] [].

Definition created : state := snd (create env (init Mock.root)).

End Outage.

(** ** [transaction_id], from the draws of the generator

    [random.choice(seq)] is [seq[i]] for an index [i] that the
    generator draws below [len(seq)]; [draw x] is the draw of the x-th
    turn of the generator expression. *)

Module Token.

(** [string.ascii_letters]: lowercase, then uppercase. *)
Definition ascii_letters : string :=
  "abcdefghijklmnopqrstuvwxyzABCDEFGHIJKLMNOPQRSTUVWXYZ".

(** [seq[i]]; the generator never draws an index outside [seq]. *)
Definition choice (seq : string) (i : nat) : Ascii.ascii :=
  match String.get i seq with
  | Some c => c
  | None => Ascii.zero
  end.

(** Line 75. *)
Definition transaction_id (draw : nat -> nat) : string :=
  string_of_list_ascii
    (map (fun x => choice ascii_letters (draw x)) (seq 0 12)).

Definition is_letter (c : Ascii.ascii) : bool :=
  let n := Ascii.nat_of_ascii c in
  (Nat.leb 97 n && Nat.leb n 122) || (Nat.leb 65 n && Nat.leb n 90).

End Token.

(** ** [OpenCVVideoStreamTrack]

    The camera and the clock of the base class are outside: [read n]
    is what the n-th [self.vid.read()] gives ([None] when [ret] is
    false, else the image), [next_timestamp n] what the n-th
    [await self.next_timestamp()] gives.  Frames are objects: the
    track and its callers hold references to them. *)

Module Track.

Record Camera : Type := {
  read : nat -> option nat;
  next_timestamp : nat -> Z * (Z * Z)      (* pts, time_base as a fraction *)
}.

(** An [av.VideoFrame]. *)
Record VideoFrame : Type := {
  image : nat;
  pts : option Z;
  time_base : option (Z * Z)
}.

Record track : Type := {
  counter : nat;
  last_frame : option nat;          (* unset until a read succeeds *)
  frames : list VideoFrame;         (* the frame objects made so far *)
  n_read : nat;
  n_stamp : nat
}.

(** [__init__], lines 51-55: [last_frame] is not assigned. *)
Definition new : track :=
  {| counter := 0; last_frame := None; frames := []; n_read := 0; n_stamp := 0 |}.

(** Lines 57-63. *)
Definition read_frame (cam : Camera) (s : track) : track :=
  match read cam (n_read s) with
  | Some img =>
      {| counter := counter s;
         last_frame := Some (length (frames s));
         frames := frames s ++ [{| image := img; pts := None; time_base := None |}];
         n_read := S (n_read s); n_stamp := n_stamp s |}
  | None =>
      {| counter := counter s; last_frame := last_frame s; frames := frames s;
         n_read := S (n_read s); n_stamp := n_stamp s |}
  end.

(** [frame.pts = p; frame.time_base = tb] on the object [r]. *)
Definition stamp (r : nat) (p : Z) (tb : Z * Z) (fs : list VideoFrame)
  : list VideoFrame :=
  match fs !! r with
  | Some f => <[r := {| image := image f; pts := Some p; time_base := Some tb |}]> fs
  | None => fs
  end.

(** Lines 65-71: the reference returned is [self.last_frame]. *)
Definition recv (cam : Camera) (s : track) : result nat * track :=
  let '(p, tb) := next_timestamp cam (n_stamp s) in
  let s1 := read_frame cam
              {| counter := counter s; last_frame := last_frame s;
                 frames := frames s; n_read := n_read s;
                 n_stamp := S (n_stamp s) |} in
  match last_frame s1 with
  | None => (Raise AttributeError, s1)
  | Some r =>
      (Ok r,
       {| counter := S (counter s1); last_frame := Some r;
          frames := stamp r p tb (frames s1);
          n_read := n_read s1; n_stamp := n_stamp s1 |})
  end.

(** [n] calls of [recv] in a row, with what each gave. *)
Fixpoint recv_many (cam : Camera) (n : nat) (s : track)
  : list (result nat) * track :=
  match n with
  | O => ([], s)
  | S n' =>
      let (r, s1) := recv cam s in
      let (rs, s2) := recv_many cam n' s1 in
      (r :: rs, s2)
  end.

Definition returned (r : result nat) : bool :=
  match r with Ok _ => true | Raise _ => false end.

End Track.

(** ** The messages of [run], [publish] and [subscribe] *)

Module Caller.

(** The "jsep" of lines 187-191 and 253-257. *)
Definition jsep (sdp type : string) : value :=
  VDict [("sdp", VStr sdp); ("trickle", VBool false); ("type", VStr type)].

(** Lines 270-279: [run] joins the room as a publisher. *)
Definition join_publisher (room : Z) : dict :=
  [("body", VDict [("display", VStr "aiortc"); ("ptype", VStr "publisher");
                   ("request", VStr "join"); ("room", VInt room)])].

(** Lines 170-173: [audio] is [player and player.audio]. *)
Definition media (audio : bool) : dict :=
  let m := [("audio", VBool false); ("video", VBool true); ("data", VBool true)] in
  if audio then Dict.assign "audio" (VBool true) m else m.

(** Lines 182-193: [publish] sends the offer. *)
Definition configure (audio : bool) (sdp type : string) : dict :=
  let request := Dict.update [("request", VStr "configure")] (media audio) in
  [("body", VDict request); ("jsep", jsep sdp type)].

(** Lines 237-239: [subscribe] joins as a subscriber of [feed]. *)
Definition join_subscriber (room : Z) (feed : value) : dict :=
  [("body", VDict [("request", VStr "join"); ("ptype", VStr "subscriber");
                   ("room", VInt room); ("feed", feed)])].

(** Lines 250-259: [subscribe] sends the answer. *)
Definition start (sdp type : string) : dict :=
  [("body", VDict [("request", VStr "start")]); ("jsep", jsep sdp type)].

(** A payload one of the three functions passes to [send]. *)
Inductive sent : dict -> Prop :=
| sent_join_publisher room : sent (join_publisher room)
| sent_configure audio sdp type : sent (configure audio sdp type)
| sent_join_subscriber room feed : sent (join_subscriber room feed)
| sent_start sdp type : sent (start sdp type).

End Caller.

(** ** Replies, by what the code reads in them *)

(** A success reply with an id at [data["data"]["id"]] (lines 112-113
    and 123-124). *)
Definition carries_id (data id : value) : Prop :=
  janus_is "success" data = true /\
  exists d, subscript data "data" = Ok d /\ subscript d "id" = Ok id.

(** A polled message that has a "janus" field which is not "event". *)
Definition other_kind (r : reply) : Prop :=
  match r with
  | Json data =>
      exists j, subscript data "janus" = Ok j /\ py_eq j (VStr "event") = false
  | Refused _ => False
  end.

(** ** Proof support *)

Ltac unfold_m :=
  unfold bind, ret, raise, gets, modify, lift, print, py_assert, deref,
    transaction_id, http_post, http_get, queue_put, new_plugin,
    ensure_future in *.

Ltac st_simpl :=
  cbn [_http _poll_task _plugins _root_url _session_url heap tasks log
       n_id n_post n_get n_http set_http set_poll_task set_plugins
       set_session_url set_heap set_tasks emit tick_id tick_post tick_get
       tick_http init fst snd _queue _url] in *.

Ltac py_step := repeat (progress (unfold_m; st_simpl)).

(** Case analysis on whatever the code branches on next. *)
Ltac py_case :=
  match goal with
  | |- context [match ?x with _ => _ end] =>
      lazymatch x with
      | context [match _ with _ => _ end] => fail
      | _ => destruct x eqn:?
      end
  end.

Ltac py_cases := repeat (py_step; py_case); py_step.

(** ** The scenarios of the specification, run *)

(** create, attach "echo", send {"ping": 1}: the event comes back. *)
Example scenario_echo :
  let s1 := snd (create Mock.echo (init Mock.root)) in
  let (h, s2) := attach Mock.echo "echo" s1 in
  h = Ok 0 /\
  _session_url s2 = Some "http://localhost:8088/janus/1" /\
  (_url <$> heap s2 !! 0) = Some "http://localhost:8088/janus/1/10" /\
  fst (send Mock.echo 0 [("ping", VInt 1)] [0] s2)
  = Returned (Mock.event (VInt 10) "cccccccccccc").
Proof. vm_compute. repeat split. Qed.

(** With no turn given to the poll task the call stays suspended. *)
Example scenario_pending :
  let s1 := snd (create Mock.echo (init Mock.root)) in
  let s2 := snd (attach Mock.echo "echo" s1) in
  fst (send Mock.echo 0 [("ping", VInt 1)] [] s2) = Pending.
Proof. vm_compute. reflexivity. Qed.

(** Two handles, events for 20 then 10: each call gets its own. *)
Example scenario_two_handles :
  (fst <$> send_recv 0 (envelope (Mock.T 3) [("ping", VInt 1)])
             Scenario.pair_answered)
  = Some (Ok (Mock.event (VInt 10) (Mock.T 3))) /\
  (fst <$> send_recv 1 (envelope (Mock.T 4) [("ping", VInt 2)])
             Scenario.pair_answered)
  = Some (Ok (Mock.event (VInt 20) (Mock.T 4))).
Proof. vm_compute. split; reflexivity. Qed.

(** ** The poll task once it has ended *)

Section Facts.
Variable E : Env.

Lemma poll_step_idle t s :
  tasks s !! t <> Some Running -> poll_step E t s = s.
Proof.
  intros H. unfold poll_step.
  destruct (tasks s !! t) as [[]|]; congruence.
Qed.

Lemma _poll_idle n t s :
  tasks s !! t <> Some Running -> _poll E n t s = s.
Proof.
  induction n as [|n IH]; intros H; simpl; [reflexivity|].
  rewrite poll_step_idle by exact H. apply IH, H.
Qed.

End Facts.

(** ** Dictionaries *)

Section DictFacts.
Context {V : Type}.
Implicit Types (d p : list (string * V)) (k : string) (v : V).

Lemma get_assign k k' v d :
  Dict.get k (Dict.assign k' v d)
  = if String.eqb k k' then Some v else Dict.get k d.
Proof.
  induction d as [|[k0 v0] d IH]; simpl.
  - reflexivity.
  - destruct (String.eqb_spec k' k0) as [->|Hne]; simpl.
    + destruct (String.eqb k k0); reflexivity.
    + rewrite IH. destruct (String.eqb_spec k k0) as [->|]; [|reflexivity].
      destruct (String.eqb_spec k0 k'); congruence.
Qed.

Lemma get_None_keys k d : Dict.get k d = None <-> k ∉ Dict.keys d.
Proof.
  induction d as [|[k0 v0] d IH]; simpl.
  - split; [intros _; apply not_elem_of_nil | reflexivity].
  - rewrite not_elem_of_cons.
    destruct (String.eqb_spec k k0) as [->|Hne].
    + split; [discriminate | intros [H _]; congruence].
    + rewrite IH. tauto.
Qed.

Lemma assign_fresh k v d :
  Dict.get k d = None -> Dict.assign k v d = d ++ [(k, v)].
Proof.
  induction d as [|[k0 v0] d IH]; simpl; [reflexivity|].
  destruct (String.eqb k k0); [discriminate|].
  intros H. now rewrite IH.
Qed.

Lemma get_app_fresh k k' v d :
  k <> k' -> Dict.get k (d ++ [(k', v)]) = Dict.get k d.
Proof.
  intros Hne. induction d as [|[k0 v0] d IH]; simpl.
  - destruct (String.eqb_spec k k'); congruence.
  - now rewrite IH.
Qed.

(** After [d.update(p)] a key of [p] has the value [p] gives it, any
    other key the value it had. *)
Lemma get_update k d p :
  NoDup (Dict.keys p) ->
  Dict.get k (Dict.update d p)
  = match Dict.get k p with Some v => Some v | None => Dict.get k d end.
Proof.
  unfold Dict.update. revert d.
  induction p as [|[k0 v0] p IH]; intros d Hnd; simpl; [reflexivity|].
  inversion Hnd as [|? ? Hnotin Hnd']; subst.
  rewrite IH by exact Hnd'. rewrite get_assign.
  destruct (String.eqb_spec k k0) as [->|Hne]; [|reflexivity].
  apply get_None_keys in Hnotin. now rewrite Hnotin.
Qed.

(** When no key of [p] is in [d], the update appends [p]. *)
Lemma update_disjoint d p :
  NoDup (Dict.keys p) ->
  (forall k, k ∈ Dict.keys p -> Dict.get k d = None) ->
  Dict.update d p = d ++ p.
Proof.
  unfold Dict.update. revert d.
  induction p as [|[k0 v0] p IH]; intros d Hnd Hdis; simpl.
  - now rewrite app_nil_r.
  - inversion Hnd as [|? ? Hnotin Hnd']; subst.
    rewrite assign_fresh by (apply Hdis; simpl; apply elem_of_cons; now left).
    rewrite IH; [now rewrite <- app_assoc | exact Hnd' |].
    intros k Hk. rewrite get_app_fresh.
    + apply Hdis. simpl. apply elem_of_cons. now right.
    + intros ->. apply Hnotin, Hk.
Qed.

End DictFacts.

(** ** [send], line by line *)

Section SendFacts.
Variable E : Env.

(** Lines 85-89 when the gateway acknowledges. *)
Lemma send_post_ack h payload s c self data j :
  _http s = Some c ->
  heap s !! h = Some self ->
  post_reply E (n_post s) = Json data ->
  subscript data "janus" = Ok j ->
  py_eq j (VStr "ack") = true ->
  send_post E h payload s
  = (Ok (envelope (rng E (n_id s)) payload),
     tick_post (emit (EPost c (_url self) (envelope (rng E (n_id s)) payload))
                  (tick_id s))).
Proof.
  intros Hc Hh Hr Hj Hack. unfold send_post.
  repeat (py_step; rewrite ?Hh, ?Hc, ?Hr, ?Hj, ?Hack). reflexivity.
Qed.

(** Whatever happens in lines 85-89, the message that comes out of
    them is the envelope of this call. *)
Lemma send_post_message h payload s msg s' :
  send_post E h payload s = (Ok msg, s') ->
  msg = envelope (rng E (n_id s)) payload.
Proof.
  unfold send_post. intros H. py_step.
  destruct (heap s !! h); py_step; [|discriminate].
  destruct (_http s); py_step; [|discriminate].
  destruct (post_reply E (n_post s)); py_step; [discriminate|].
  destruct (subscript data "janus"); py_step; [|discriminate].
  destruct (py_eq a (VStr "ack")); py_step; congruence.
Qed.

(** Lines 91-93 on a queue whose oldest item is [item]. *)
Lemma send_recv_item h msg s self item rest :
  heap s !! h = Some self ->
  _queue self = item :: rest ->
  send_recv h msg s
  = Some (match subscript item "transaction" with
          | Ok t =>
              match Dict.get "transaction" msg with
              | Some t' => if py_eq t t' then Ok item else Raise AssertionError
              | None => Raise (KeyError "transaction")
              end
          | Raise e => Raise e
          end, set_queue h rest s).
Proof.
  intros Hh Hq. unfold send_recv. rewrite Hh, Hq. f_equal.
  py_step. destruct (subscript item "transaction") as [t|e]; [|reflexivity].
  unfold subscript. destruct (Dict.get "transaction" msg) as [t'|]; [|reflexivity].
  py_step. destruct (py_eq t t'); reflexivity.
Qed.

(** A value returned by lines 91-93 was the oldest item of the inbox
    and carries the transaction of the message. *)
Lemma send_recv_returned h msg s r s' :
  send_recv h msg s = Some (Ok r, s') ->
  exists self rest t t',
    heap s !! h = Some self /\ _queue self = r :: rest /\
    s' = set_queue h rest s /\
    subscript r "transaction" = Ok t /\
    Dict.get "transaction" msg = Some t' /\
    py_eq t t' = true.
Proof.
  intros H. unfold send_recv in H.
  destruct (heap s !! h) as [self|] eqn:Hh; [|discriminate].
  destruct (_queue self) as [|item rest] eqn:Hq; [discriminate|].
  pose proof (send_recv_item h msg s self item rest Hh Hq) as Hi.
  unfold send_recv in Hi. rewrite Hh, Hq in Hi. rewrite Hi in H. clear Hi.
  destruct (subscript item "transaction") as [t|] eqn:Ht; [|discriminate].
  destruct (Dict.get "transaction" msg) as [t'|] eqn:Ht'; [|discriminate].
  destruct (py_eq t t') eqn:Heq; [|discriminate].
  injection H as <- <-. exists self, rest, t, t'. repeat split; auto.
Qed.

(** The same through the suspension: some turns of the poll tasks
    first, then the dequeue. *)
Lemma await_inbox_returned sched h msg s r s' :
  await_inbox E sched h msg s = (Returned r, s') ->
  exists k self rest t t',
    let s1 := polls E (take k sched) s in
    heap s1 !! h = Some self /\ _queue self = r :: rest /\
    s' = set_queue h rest s1 /\
    subscript r "transaction" = Ok t /\
    Dict.get "transaction" msg = Some t' /\
    py_eq t t' = true.
Proof.
  revert s. induction sched as [|t0 sched IH]; intros s H; simpl in H.
  - destruct (send_recv h msg s) as [[[r0|e] s0]|] eqn:Hs; try discriminate.
    injection H as <- <-.
    apply send_recv_returned in Hs as (self & rest & t & t' & ?).
    exists 0, self, rest, t, t'. exact H.
  - destruct (send_recv h msg s) as [[[r0|e] s0]|] eqn:Hs; try discriminate.
    + injection H as <- <-.
      apply send_recv_returned in Hs as (self & rest & t & t' & ?).
      exists 0, self, rest, t, t'. exact H.
    + apply IH in H as (k & self & rest & t & t' & H).
      exists (S k), self, rest, t, t'. exact H.
Qed.

End SendFacts.

Section UpdateFacts.
Context {V : Type}.
Implicit Types (d p : list (string * V)) (k : string).

(** A key that [p] does not have keeps its value through [d.update(p)]. *)
Lemma get_update_other k d p :
  Dict.get k p = None -> Dict.get k (Dict.update d p) = Dict.get k d.
Proof.
  unfold Dict.update. revert d.
  induction p as [|[k0 v0] p IH]; intros d H; simpl in *; [reflexivity|].
  destruct (String.eqb k k0) eqn:Hk; [discriminate|].
  rewrite IH by exact H. rewrite get_assign, Hk. reflexivity.
Qed.

(** A key of [d] is still a key after [d.update(p)]. *)
Lemma get_update_is_Some k d p :
  is_Some (Dict.get k d) -> is_Some (Dict.get k (Dict.update d p)).
Proof.
  unfold Dict.update. revert d.
  induction p as [|[k0 v0] p IH]; intros d H; simpl; [exact H|].
  apply IH. rewrite get_assign. destruct (String.eqb k k0); [eauto|exact H].
Qed.

End UpdateFacts.

Lemma envelope_has_transaction tid payload :
  is_Some (Dict.get "transaction" (envelope tid payload)).
Proof. apply get_update_is_Some. simpl. eauto. Qed.

(** On a mismatch the suspended call raises as soon as it is resumed,
    whatever turns were still scheduled. *)
Lemma await_inbox_mismatch E sched h msg s self item rest t t' :
  heap s !! h = Some self ->
  _queue self = item :: rest ->
  subscript item "transaction" = Ok t ->
  Dict.get "transaction" msg = Some t' ->
  py_eq t t' = false ->
  await_inbox E sched h msg s = (Raised AssertionError, set_queue h rest s).
Proof.
  intros Hh Hq Ht Ht' Hne.
  pose proof (send_recv_item h msg s self item rest Hh Hq) as Hr.
  rewrite Ht, Ht', Hne in Hr.
  destruct sched; simpl; rewrite Hr; reflexivity.
Qed.

(** ** What each step leaves alone *)

Section Frames.
Variable E : Env.

Lemma append_slash_nonempty (a b : string) : a +:+ "/" +:+ b <> "".
Proof. destruct a; discriminate. Qed.

Lemma set_queue_frame h q s :
  tasks (set_queue h q s) = tasks s /\
  _session_url (set_queue h q s) = _session_url s /\
  _poll_task (set_queue h q s) = _poll_task s /\
  _plugins (set_queue h q s) = _plugins s /\
  _http (set_queue h q s) = _http s /\
  length (heap (set_queue h q s)) = length (heap s).
Proof.
  unfold set_queue. destruct (heap s !! h); st_simpl; repeat split.
  apply length_insert.
Qed.

Lemma attach_frame name s :
  let s' := snd (attach E name s) in
  tasks s' = tasks s /\ _session_url s' = _session_url s /\
  _poll_task s' = _poll_task s /\ _http s' = _http s.
Proof.
  unfold attach, Registry.setitem. py_cases; repeat split; congruence.
Qed.

Lemma send_post_frame h payload s :
  let s' := snd (send_post E h payload s) in
  tasks s' = tasks s /\ _session_url s' = _session_url s /\
  _poll_task s' = _poll_task s /\ _plugins s' = _plugins s /\
  heap s' = heap s.
Proof.
  unfold send_post. py_cases; repeat split; congruence.
Qed.

Lemma send_recv_frame h msg s r s' :
  send_recv h msg s = Some (r, s') ->
  tasks s' = tasks s /\ _session_url s' = _session_url s /\
  _poll_task s' = _poll_task s /\ _plugins s' = _plugins s.
Proof.
  intros H.
  destruct (heap s !! h) as [self|] eqn:Hh.
  - destruct (_queue self) as [|item rest] eqn:Hq.
    + unfold send_recv in H. rewrite Hh, Hq in H. discriminate.
    + rewrite (send_recv_item h msg s self item rest Hh Hq) in H.
      injection H as _ <-.
      pose proof (set_queue_frame h rest s) as (? & ? & ? & ? & _). auto.
  - unfold send_recv in H. rewrite Hh in H. injection H as _ <-. auto.
Qed.

Lemma poll_once_frame s :
  let s' := snd (poll_once E s) in
  tasks s' = tasks s /\ _session_url s' = _session_url s /\
  _poll_task s' = _poll_task s /\ _plugins s' = _plugins s /\
  _http s' = _http s.
Proof.
  unfold poll_once, Registry.get.
  py_cases; repeat split;
    try congruence;
    match goal with
    | |- context [set_queue ?h ?q ?s] =>
        pose proof (set_queue_frame h q s) as (? & ? & ? & ? & ? & _);
        st_simpl; congruence
    end.
Qed.

Lemma poll_step_frame t s :
  let s' := poll_step E t s in
  _session_url s' = _session_url s /\ _poll_task s' = _poll_task s /\
  _plugins s' = _plugins s /\ _http s' = _http s.
Proof.
  unfold poll_step.
  pose proof (poll_once_frame s) as (_ & Hu & Hp & Hr & Hh).
  destruct (tasks s !! t) as [[]|]; try (repeat split; reflexivity).
  destruct (poll_once E s) as [[|e] s1]; st_simpl; auto.
Qed.

End Frames.

(** ** [destroy], statement by statement *)

Section DestroyFacts.
Variable E : Env.

Lemma cancel_fields t s :
  _http (cancel t s) = _http s /\
  _poll_task (cancel t s) = _poll_task s /\
  _session_url (cancel t s) = _session_url s /\
  _plugins (cancel t s) = _plugins s /\
  heap (cancel t s) = heap s /\
  n_post (cancel t s) = n_post s /\
  n_id (cancel t s) = n_id s /\
  log (cancel t s) = log s ++ [ECancel t].
Proof.
  unfold cancel. destruct (tasks s !! t) as [[]|]; st_simpl; repeat split.
Qed.

(** After [cancel t] the task [t] is not running, and no other task
    has changed. *)
Lemma cancel_live t s t' : live (cancel t s) t' <-> live s t' /\ t' <> t.
Proof.
  unfold live, cancel.
  destruct (tasks s !! t) as [st|] eqn:Ht; st_simpl.
  - destruct st; st_simpl;
      try (split; [intros H; split; [exact H | intros ->; congruence]
                  | intros [H _]; exact H]).
    destruct (decide (t' = t)) as [->|Hne].
    + rewrite list_lookup_insert_eq by (eapply lookup_lt_Some; eauto).
      split; [discriminate | intros [_ H]; congruence].
    + rewrite list_lookup_insert_ne by congruence. tauto.
  - split; [intros H; split; [exact H | intros ->; congruence]
           | intros [H _]; exact H].
Qed.

Lemma stop_poll_spec s :
  stop_poll s
  = (Ok tt, match _poll_task s with
            | Some t => set_poll_task None (cancel t s)
            | None => s
            end).
Proof. unfold stop_poll. py_step. destruct (_poll_task s); reflexivity. Qed.

Lemma close_http_spec s :
  close_http s
  = (Ok tt, match _http s with
            | Some c => set_http None (emit (EClose c) s)
            | None => s
            end).
Proof. unfold close_http. py_step. destruct (_http s); reflexivity. Qed.

(** The remote step with nothing to do. *)
Lemma destroy_remote_skip s :
  truthy (_session_url s) = false -> destroy_remote E s = (Ok tt, s).
Proof. intros H. unfold destroy_remote. py_step. now rewrite H. Qed.

(** The remote step when the gateway confirms. *)
Lemma destroy_remote_success s c u data :
  _http s = Some c ->
  _session_url s = Some u ->
  truthy (Some u) = true ->
  post_reply E (n_post s) = Json data ->
  janus_is "success" data = true ->
  destroy_remote E s
  = (Ok tt,
     set_session_url None
       (tick_post
          (emit (EPost c u [("janus", VStr "destroy");
                            ("transaction", VStr (rng E (n_id s)))])
             (tick_id s)))).
Proof.
  intros Hc Hu Ht Hr Hj. unfold janus_is in Hj.
  destruct (subscript data "janus") as [j|] eqn:Hjj; [|discriminate].
  unfold destroy_remote.
  repeat (py_step; rewrite ?Hu, ?Ht, ?Hc, ?Hr, ?Hjj, ?Hj). reflexivity.
Qed.

(** The remote step when the gateway does not: the exception leaves
    the step before [self._session_url = None]. *)
Lemma destroy_remote_failure s c u :
  _http s = Some c ->
  _session_url s = Some u ->
  truthy (Some u) = true ->
  post_fails E s ->
  exists e,
    destroy_remote E s
    = (Raise e,
       tick_post
         (emit (EPost c u [("janus", VStr "destroy");
                           ("transaction", VStr (rng E (n_id s)))])
            (tick_id s))).
Proof.
  intros Hc Hu Ht Hf. unfold post_fails, janus_is in Hf. unfold destroy_remote.
  destruct (post_reply E (n_post s)) as [code|data] eqn:Hr.
  - exists (ClientError code).
    repeat (py_step; rewrite ?Hu, ?Ht, ?Hc, ?Hr). reflexivity.
  - destruct (subscript data "janus") as [j|e] eqn:Hjj.
    + exists AssertionError.
      repeat (py_step; rewrite ?Hu, ?Ht, ?Hc, ?Hr, ?Hjj, ?Hf). reflexivity.
    + exists e.
      repeat (py_step; rewrite ?Hu, ?Ht, ?Hc, ?Hr, ?Hjj). reflexivity.
Qed.

(** A remote step that returns leaves no session URL that is true,
    and touches neither the tasks nor [self._poll_task]. *)
Lemma destroy_remote_returns s s' :
  destroy_remote E s = (Ok tt, s') ->
  truthy (_session_url s') = false /\
  (_session_url s' = None \/ _session_url s' = _session_url s) /\
  tasks s' = tasks s /\ _poll_task s' = _poll_task s /\ _http s' = _http s.
Proof.
  unfold destroy_remote. py_step.
  destruct (truthy (_session_url s)) eqn:Ht.
  - py_cases; intros H; try discriminate; injection H as <-; st_simpl; auto.
  - py_step. intros H. injection H as <-. auto.
Qed.

End DestroyFacts.

Section SessionFacts.
Variable E : Env.

Lemma destroy_unfold s :
  destroy E s
  = match destroy_remote E (match _poll_task s with
                            | Some t => set_poll_task None (cancel t s)
                            | None => s
                            end) with
    | (Ok _, s2) => close_http s2
    | (Raise e, s2) => (Raise e, s2)
    end.
Proof. unfold destroy, bind. now rewrite stop_poll_spec. Qed.

(** [create] either fails before line 125 or sets the URL and spawns
    one task. *)
Lemma create_cases s :
  let s' := snd (create E s) in
  (tasks s' = tasks s /\ _poll_task s' = _poll_task s /\
   _session_url s' = _session_url s) \/
  (exists sid, _session_url s' = Some (_root_url s +:+ "/" +:+ sid) /\
               tasks s' = tasks s ++ [Running] /\
               _poll_task s' = Some (length (tasks s))).
Proof.
  unfold create. py_cases; try (left; repeat split; reflexivity).
  right. eexists. repeat split.
Qed.

Lemma destroy_session_url s :
  let s' := snd (destroy E s) in
  _session_url s' = None \/ _session_url s' = _session_url s.
Proof.
  simpl. rewrite destroy_unfold.
  set (s1 := match _poll_task s with
             | Some t => set_poll_task None (cancel t s)
             | None => s
             end).
  assert (H1 : _session_url s1 = _session_url s).
  { unfold s1. destruct (_poll_task s); [|reflexivity].
    st_simpl. apply cancel_fields. }
  rewrite <- H1. clear H1. generalize s1. clear s1. intros s1.
  destruct (destroy_remote E s1) as [[[]|e] s2] eqn:Hd.
  - apply destroy_remote_returns in Hd as (_ & Hu & _).
    rewrite close_http_spec.
    destruct (_http s2); st_simpl; exact Hu.
  - revert Hd. unfold destroy_remote.
    py_cases; intros H; try discriminate; injection H as _ <-; st_simpl; auto.
Qed.

Lemma exec_url_ok a s :
  _session_url s <> Some "" -> _session_url (exec E a s) <> Some "".
Proof.
  intros H. destruct a as [|name| |t|h payload|h msg]; simpl.
  - destruct (create_cases s) as [(_ & _ & ->)|(sid & -> & _)]; [exact H|].
    intros [=Heq]. revert Heq. apply append_slash_nonempty.
  - destruct (attach_frame E name s) as (_ & -> & _). exact H.
  - destruct (destroy_session_url s) as [->| ->]; [discriminate | exact H].
  - destruct (poll_step_frame E t s) as (-> & _). exact H.
  - destruct (send_post_frame E h payload s) as (_ & -> & _). exact H.
  - destruct (send_recv h msg s) as [[r s']|] eqn:Hr; [|exact H].
    apply send_recv_frame in Hr as (_ & -> & _). exact H.
Qed.

Lemma run_url_ok acts s :
  _session_url s <> Some "" -> _session_url (run E acts s) <> Some "".
Proof.
  revert s. induction acts as [|a acts IH]; intros s H; simpl; [exact H|].
  apply IH, exec_url_ok, H.
Qed.

Lemma reachable_url_ok url s :
  reachable E url s -> _session_url s <> Some "".
Proof. intros [acts ->]. apply run_url_ok. discriminate. Qed.

Lemma truthy_false_None u : u <> Some "" -> truthy u = false -> u = None.
Proof.
  destruct u as [u|]; [|reflexivity]. simpl.
  destruct (String.eqb_spec u ""); [congruence | discriminate].
Qed.

(** What a [destroy] that returns leaves behind. *)
Lemma destroy_returns s s' :
  destroy E s = (Ok tt, s') ->
  _poll_task s' = None /\ truthy (_session_url s') = false /\
  (_session_url s' = None \/ _session_url s' = _session_url s) /\
  _http s' = None /\
  forall t, live s' t -> live s t /\ _poll_task s <> Some t.
Proof.
  rewrite destroy_unfold.
  set (s1 := match _poll_task s with
             | Some t => set_poll_task None (cancel t s)
             | None => s
             end).
  assert (H1 : _poll_task s1 = None /\ _session_url s1 = _session_url s /\
               forall t, live s1 t -> live s t /\ _poll_task s <> Some t).
  { unfold s1. destruct (_poll_task s) as [t0|] eqn:Hp; st_simpl.
    - split; [reflexivity|]. split; [apply cancel_fields|].
      intros t Hl. apply cancel_live in Hl as [Hl Hne].
      split; [exact Hl | congruence].
    - split; [exact Hp|]. split; [reflexivity|]. intros t Hl.
      split; [exact Hl | discriminate]. }
  destruct H1 as (Hp1 & Hu1 & Hl1). rewrite <- Hu1. clearbody s1.
  destruct (destroy_remote E s1) as [[[]|e] s2] eqn:Hd; [|discriminate].
  apply destroy_remote_returns in Hd as (Ht & Hu & Hts & Hp & _).
  rewrite close_http_spec. intros H.
  assert (Hs' : tasks s' = tasks s2 /\ _poll_task s' = _poll_task s2 /\
                _session_url s' = _session_url s2 /\ _http s' = None).
  { destruct (_http s2) eqn:Hh; injection H as <-; st_simpl; auto. }
  destruct Hs' as (Ha & Hb & Hc & Hd').
  rewrite Hb, Hc, Hp. repeat split; auto.
  - apply Hl1. unfold live in *. congruence.
  - apply Hl1. unfold live in *. congruence.
Qed.

End SessionFacts.

(** ** Calls that wait: what they leave of the session *)

Section WornFacts.
Variable E : Env.

Lemma worn_refl s : worn s s.
Proof. split; [reflexivity|]. split; [reflexivity|]. intros t. now left. Qed.

Lemma worn_frame s s' :
  tasks s' = tasks s -> _session_url s' = _session_url s ->
  _poll_task s' = _poll_task s -> worn s s'.
Proof.
  intros Ht Hu Hp. split; [exact Hu|]. split; [exact Hp|].
  intros t. left. now rewrite Ht.
Qed.

Lemma worn_trans s1 s2 s3 : worn s1 s2 -> worn s2 s3 -> worn s1 s3.
Proof.
  intros (Hu & Hp & Ht) (Hu' & Hp' & Ht').
  split; [congruence|]. split; [congruence|].
  intros t. destruct (Ht' t) as [Heq|[Hl [e He]]].
  - rewrite Heq. exact (Ht t).
  - destruct (Ht t) as [Heq1|[Hl1 [e1 He1]]].
    + right. split; [unfold live in *; congruence | eauto].
    + unfold live in Hl. congruence.
Qed.

Lemma worn_live s s' t : worn s s' -> live s' t -> live s t.
Proof.
  intros (_ & _ & Ht) Hl. destruct (Ht t) as [Heq|[Hl1 _]]; [|exact Hl1].
  unfold live in *. congruence.
Qed.

(** A turn of the poll loop can end the task that takes it and does
    nothing else to the tasks. *)
Lemma poll_step_worn t s : worn s (poll_step E t s).
Proof.
  destruct (poll_step_frame E t s) as (Hu & Hp & _).
  split; [exact Hu|]. split; [exact Hp|]. clear Hu Hp.
  intros t'. unfold poll_step, live.
  pose proof (poll_once_frame E s) as (Ht & _).
  destruct (tasks s !! t) as [[]|] eqn:Hl; try (left; reflexivity).
  destruct (poll_once E s) as [[|e] s1]; st_simpl; simpl in Ht.
  - left. now rewrite Ht.
  - rewrite Ht. destruct (decide (t' = t)) as [->|Hne].
    + right. split; [exact Hl|]. exists e.
      rewrite list_lookup_insert_eq by (eapply lookup_lt_Some; eauto).
      reflexivity.
    + left. now rewrite list_lookup_insert_ne by congruence.
Qed.

Lemma polls_worn turns s : worn s (polls E turns s).
Proof.
  revert s. induction turns as [|t turns IH]; intros s; [apply worn_refl|].
  change (polls E (t :: turns) s) with (polls E turns (poll_step E t s)).
  eapply worn_trans; [apply poll_step_worn | apply IH].
Qed.

Lemma awaited_fst {A} turns (request : M A) s :
  fst (awaited E turns request s) = fst (request s).
Proof. unfold awaited. now destruct (request s). Qed.

Lemma awaited_worn {A} turns (request : M A) s :
  worn s (snd (request s)) -> worn s (snd (awaited E turns request s)).
Proof.
  unfold awaited. destruct (request s) as [r s1]. cbn [snd]. intros H.
  eapply worn_trans; [exact H | apply polls_worn].
Qed.

Lemma awaited_nil {A} (request : M A) s : awaited E [] request s = request s.
Proof. unfold awaited. now destruct (request s). Qed.

Lemma attach_request_frame name s : worn s (snd (attach_request E name s)).
Proof.
  apply worn_frame; unfold attach_request; py_cases;
    first [reflexivity | congruence].
Qed.

Lemma attach_register_frame data s : worn s (snd (attach_register E data s)).
Proof.
  apply worn_frame; unfold attach_register, Registry.setitem; py_cases;
    first [reflexivity | congruence].
Qed.

Lemma create_request_frame s : worn s (snd (create_request E s)).
Proof.
  apply worn_frame; unfold create_request; py_cases;
    first [reflexivity | congruence].
Qed.

Lemma destroy_request_frame url s : worn s (snd (destroy_request E url s)).
Proof.
  apply worn_frame; unfold destroy_request; py_cases;
    first [reflexivity | congruence].
Qed.

(** [attach] with turns in its await changes neither the URL nor the
    poll task, and ends no task but by the turns. *)
Lemma attach_across_worn name turns s :
  worn s (snd (attach_across E name turns s)).
Proof.
  unfold attach_across, bind.
  pose proof (awaited_worn turns (attach_request E name) s
                (attach_request_frame name s)) as Hw.
  destruct (awaited E turns (attach_request E name) s) as [[data|e] s1];
    cbn [fst snd] in Hw |- *; [|exact Hw].
  eapply worn_trans; [exact Hw | apply attach_register_frame].
Qed.

(** From the reply on, [create] either raises before line 125 or sets
    the URL and spawns one task. *)
Lemma create_finish_cases data s :
  (is_ok (fst (create_finish E data s)) = false /\
   worn s (snd (create_finish E data s))) \/
  (is_ok (fst (create_finish E data s)) = true /\
   exists sid,
     _session_url (snd (create_finish E data s))
     = Some (_root_url s +:+ "/" +:+ sid) /\
     tasks (snd (create_finish E data s)) = tasks s ++ [Running] /\
     _poll_task (snd (create_finish E data s)) = Some (length (tasks s))).
Proof.
  unfold create_finish. py_cases; cbn [is_ok] in *;
    try (left; split; [reflexivity | apply worn_refl]).
  right. split; [reflexivity|]. eexists. repeat split.
Qed.

Lemma create_across_cases turns s :
  (is_ok (fst (create_across E turns s)) = false /\
   worn s (snd (create_across E turns s))) \/
  (is_ok (fst (create_across E turns s)) = true /\
   exists s1 sid,
     worn s s1 /\
     _session_url (snd (create_across E turns s))
     = Some (_root_url s1 +:+ "/" +:+ sid) /\
     tasks (snd (create_across E turns s)) = tasks s1 ++ [Running] /\
     _poll_task (snd (create_across E turns s)) = Some (length (tasks s1))).
Proof.
  unfold create_across, bind.
  pose proof (awaited_worn turns (create_request E) s
                (create_request_frame s)) as Hw.
  destruct (awaited E turns (create_request E) s) as [[data|e] s1];
    cbn [fst snd] in Hw |- *.
  - destruct (create_finish_cases data s1)
      as [[Hr Hw']|(Hr & sid & Hu & Ht & Hp)].
    + left. split; [exact Hr | eapply worn_trans; eauto].
    + right. split; [exact Hr|]. exists s1, sid. auto.
  - left. split; [reflexivity | exact Hw].
Qed.

(** Lines 130-132 leave no poll task running, when the running ones
    are the one [self._poll_task] refers to. *)
Lemma stop_poll_quiet s :
  (forall t, live s t -> _poll_task s = Some t) ->
  fst (stop_poll s) = Ok tt /\
  _poll_task (snd (stop_poll s)) = None /\
  _session_url (snd (stop_poll s)) = _session_url s /\
  forall t, ~ live (snd (stop_poll s)) t.
Proof.
  intros Hown. rewrite stop_poll_spec. cbn [fst snd].
  destruct (_poll_task s) as [t0|] eqn:Hp; st_simpl.
  - split; [reflexivity|]. split; [reflexivity|].
    split; [apply cancel_fields|].
    intros t Hl. apply cancel_live in Hl as [Hl Hne].
    apply Hown in Hl. congruence.
  - split; [reflexivity|]. split; [exact Hp|]. split; [reflexivity|].
    intros t Hl. apply Hown in Hl. discriminate.
Qed.

(** Lines 134-139: the URL is cleared when the step returns and kept
    when it raises. *)
Lemma destroy_remote_across_spec turns s :
  _session_url s <> Some "" ->
  _poll_task (snd (destroy_remote_across E turns s)) = _poll_task s /\
  (forall t, live (snd (destroy_remote_across E turns s)) t -> live s t) /\
  (if is_ok (fst (destroy_remote_across E turns s))
   then _session_url (snd (destroy_remote_across E turns s)) = None
   else _session_url (snd (destroy_remote_across E turns s)) <> None /\
        _session_url (snd (destroy_remote_across E turns s)) = _session_url s).
Proof.
  intros Hne. unfold destroy_remote_across, bind, gets. cbn beta iota.
  destruct (truthy (_session_url s)) eqn:Htr.
  - pose proof (awaited_worn turns (destroy_request E (_session_url s)) s
                  (destroy_request_frame _ s)) as Hw.
    destruct (awaited E turns (destroy_request E (_session_url s)) s)
      as [[data|e] s1]; cbn [fst snd] in Hw |- *.
    + assert (Hlive : forall t, live s1 t -> live s t)
        by (intros t; apply worn_live, Hw).
      destruct Hw as (Hu & Hp & _).
      assert (Hset : _session_url s1 <> None).
      { rewrite Hu. destruct (_session_url s); [discriminate | discriminate Htr]. }
      py_cases; cbn [is_ok] in *; try discriminate;
        (split; [exact Hp|]; split; [exact Hlive|];
         first [reflexivity | split; [exact Hset | exact Hu]]).
    + assert (Hlive : forall t, live s1 t -> live s t)
        by (intros t; apply worn_live, Hw).
      destruct Hw as (Hu & Hp & _).
      split; [exact Hp|]. split; [exact Hlive|]. cbn [is_ok].
      split; [|exact Hu]. rewrite Hu.
      destruct (_session_url s); [discriminate | discriminate Htr].
  - unfold ret. cbn [fst snd is_ok].
    split; [reflexivity|]. split; [exact (fun t H => H)|].
    now apply truthy_false_None.
Qed.

(** Lines 141-143 return. *)
Lemma close_http_across_spec turns s :
  fst (close_http_across E turns s) = Ok tt /\
  worn s (snd (close_http_across E turns s)).
Proof.
  unfold close_http_across, bind, gets. cbn beta iota.
  destruct (_http s) as [c|]; [|split; [reflexivity | apply worn_refl]].
  pose proof (awaited_fst turns (modify (emit (EClose c))) s) as Hr.
  pose proof (awaited_worn turns (modify (emit (EClose c))) s
                (worn_refl _)) as Hw.
  destruct (awaited E turns (modify (emit (EClose c))) s) as [[[]|e] s1];
    cbn [fst snd] in Hr, Hw |- *; [|discriminate Hr].
  split; [reflexivity|].
  eapply worn_trans; [exact Hw | apply worn_frame; reflexivity].
Qed.

(** What [destroy] leaves behind: no poll task, and a session URL only
    if it raised. *)
Lemma destroy_across_spec turns turns' s :
  (forall t, live s t -> _poll_task s = Some t) ->
  _session_url s <> Some "" ->
  _poll_task (snd (destroy_across E turns turns' s)) = None /\
  (forall t, ~ live (snd (destroy_across E turns turns' s)) t) /\
  (if is_ok (fst (destroy_across E turns turns' s))
   then _session_url (snd (destroy_across E turns turns' s)) = None
   else _session_url (snd (destroy_across E turns turns' s)) <> None /\
        _session_url (snd (destroy_across E turns turns' s)) = _session_url s).
Proof.
  intros Hown Hne. unfold destroy_across, bind.
  destruct (stop_poll_quiet s Hown) as (Hr1 & Hp1 & Hu1 & Hl1).
  destruct (stop_poll s) as [r1 s1]. cbn [fst snd] in Hr1, Hp1, Hu1, Hl1.
  subst r1. rewrite <- Hu1 in Hne. rewrite <- Hu1. clear Hu1.
  destruct (destroy_remote_across_spec turns s1 Hne) as (Hp2 & Hl2 & Hu2).
  destruct (destroy_remote_across E turns s1) as [[[]|e] s2];
    cbn [fst snd is_ok] in Hp2, Hl2, Hu2 |- *.
  - destruct (close_http_across_spec turns' s2) as (Hr3 & Hu3 & Hp3 & Ht3).
    pose proof (fun t => worn_live s2 _ t (conj Hu3 (conj Hp3 Ht3))) as Hl3.
    destruct (close_http_across E turns' s2) as [r3 s3].
    cbn [fst snd] in Hr3, Hu3, Hp3, Hl3 |- *. subst r3. cbn [is_ok].
    split; [congruence|]. split; [|congruence].
    intros t Hl. apply (Hl1 t), Hl2, Hl3, Hl.
  - split; [congruence|]. split; [|exact Hu2].
    intros t Hl. apply (Hl1 t), Hl2, Hl.
Qed.

(** No turn in the awaits: the calls as [exec] has them. *)
Lemma attach_across_nil name s : attach_across E name [] s = attach E name s.
Proof.
  unfold attach_across, bind. rewrite awaited_nil.
  unfold attach, attach_request, attach_register. py_cases; reflexivity.
Qed.

Lemma create_across_nil s : create_across E [] s = create E s.
Proof.
  unfold create_across, bind. rewrite awaited_nil.
  unfold create, create_request, create_finish. py_cases; reflexivity.
Qed.

Lemma destroy_remote_across_nil s :
  destroy_remote_across E [] s = destroy_remote E s.
Proof.
  unfold destroy_remote_across, destroy_remote, bind, gets. cbn beta iota.
  destruct (truthy (_session_url s)); [|reflexivity].
  rewrite awaited_nil. unfold destroy_request. py_cases; reflexivity.
Qed.

Lemma close_http_across_nil s : close_http_across E [] s = close_http s.
Proof.
  unfold close_http_across, close_http, bind, gets. cbn beta iota.
  destruct (_http s); [|reflexivity]. now rewrite awaited_nil.
Qed.

Lemma destroy_across_nil s : destroy_across E [] [] s = destroy E s.
Proof.
  unfold destroy_across, destroy, bind.
  destruct (stop_poll s) as [[[]|e] s1]; [|reflexivity].
  rewrite destroy_remote_across_nil.
  destruct (destroy_remote E s1) as [[[]|e] s2]; [|reflexivity].
  apply close_http_across_nil.
Qed.

Lemma exec_plain a s : exec_move E (plain a) s = exec E a s.
Proof.
  destruct a; cbn [plain exec_move exec];
    rewrite ?create_across_nil, ?attach_across_nil, ?destroy_across_nil;
    reflexivity.
Qed.

Lemma run_plain acts s : run_moves E (map plain acts) s = run E acts s.
Proof.
  revert s. induction acts as [|a acts IH]; intros s; [reflexivity|].
  change (run_moves E (map plain (a :: acts)) s)
    with (run_moves E (map plain acts) (exec_move E (plain a) s)).
  rewrite exec_plain. apply IH.
Qed.

End WornFacts.

(** ** Keeping the session invariant *)

Section SessionState.
Variable E : Env.

Lemma idle_live s t : idle s = true -> ~ live s t.
Proof.
  unfold idle, live. intros Hi Hl. rewrite forallb_forall in Hi.
  apply list_elem_of_lookup_2, list_elem_of_In in Hl.
  apply Hi in Hl. discriminate Hl.
Qed.

Lemma session_state_init url : session_state true (init url).
Proof.
  unfold session_state, live. cbn.
  split; [intros t H; discriminate H|]. split; [discriminate|].
  split; [intros H; contradiction|]. split; [intros _ H; contradiction|].
  discriminate.
Qed.

Lemma session_state_worn ok s s' :
  worn s s' -> session_state ok s -> session_state ok s'.
Proof.
  intros Hw (Ha & Hb & He & Hc & Hd). pose proof Hw as (Hu & Hp & Ht).
  unfold session_state. rewrite Hu, Hp.
  split; [|split; [exact Hb | split; [exact He | split; [|exact Hd]]]].
  - intros t Hl. apply Ha. eapply worn_live; eauto.
  - intros Hok Hset. destruct (Hc Hok Hset) as (t & Hpt & Hst).
    exists t. split; [exact Hpt|].
    destruct (Ht t) as [Heq|[_ Hcr]]; [|right; exact Hcr].
    unfold live. rewrite Heq. exact Hst.
Qed.

(** A [create] that returns, called while no poll loop was running. *)
Lemma session_state_created s s1 s' sid :
  idle s = true -> worn s s1 ->
  _session_url s' = Some (_root_url s1 +:+ "/" +:+ sid) ->
  tasks s' = tasks s1 ++ [Running] ->
  _poll_task s' = Some (length (tasks s1)) ->
  session_state true s'.
Proof.
  intros Hidle Hw Hu Ht Hp.
  assert (Hno : forall t, ~ live s1 t).
  { intros t Hl. eapply idle_live; [exact Hidle | eapply worn_live; eauto]. }
  assert (Hnew : live s' (length (tasks s1))).
  { unfold live. rewrite Ht. now apply list_lookup_middle. }
  unfold session_state. rewrite Hu, Hp.
  split.
  { intros t Hl. unfold live in Hl. rewrite Ht in Hl.
    destruct (decide (t < length (tasks s1))) as [Hlt|Hge].
    - rewrite lookup_app_l in Hl by exact Hlt. exfalso. exact (Hno t Hl).
    - apply lookup_lt_Some in Hl. rewrite length_app in Hl. simpl in Hl.
      split; [f_equal; lia | discriminate]. }
  split. { intros [=Heq]. revert Heq. apply append_slash_nonempty. }
  split. { intros _. discriminate. }
  split. { intros _ _. exists (length (tasks s1)). split; [reflexivity | now left]. }
  discriminate.
Qed.

Lemma session_state_exec ok m s :
  allowed E m s = true -> session_state ok s ->
  session_state (settles E m s ok) (exec_move E m s).
Proof.
  intros Hal Hs.
  destruct m as [turns|name turns|turns turns'|t|h payload|h msg];
    cbn [exec_move settles allowed exec] in Hal |- *.
  - destruct (create_across_cases E turns s)
      as [[Hr Hw]|(Hr & s1 & sid & Hw & Hu & Ht & Hp)];
      rewrite Hr in Hal |- *; cbn [orb implb] in Hal |- *.
    + eapply session_state_worn; eauto.
    + eapply session_state_created; eauto.
  - eapply session_state_worn; [apply attach_across_worn | exact Hs].
  - destruct Hs as (Ha & Hb & _).
    destruct (destroy_across_spec E turns turns' s
                (fun t Hl => proj1 (Ha t Hl)) Hb) as (Hp & Hl & Hu).
    unfold session_state.
    destruct (is_ok (fst (destroy_across E turns turns' s))).
    + split; [intros t Ht; exfalso; exact (Hl t Ht)|].
      split; [rewrite Hu; discriminate|].
      split; [intros H; contradiction|].
      split; [intros _ H; contradiction | discriminate].
    + destruct Hu as [Hset Heq].
      split; [intros t Ht; exfalso; exact (Hl t Ht)|].
      split; [rewrite Heq; exact Hb|].
      split; [intros H; contradiction|].
      split; [discriminate | intros _; split; assumption].
  - eapply session_state_worn; [apply poll_step_worn | exact Hs].
  - destruct (send_post_frame E h payload s) as (Ht & Hu & Hp & _).
    eapply session_state_worn; [apply worn_frame; eassumption | exact Hs].
  - destruct (send_recv h msg s) as [[r s']|] eqn:Hr; [|exact Hs].
    apply send_recv_frame in Hr as (Ht & Hu & Hp & _).
    eapply session_state_worn; [apply worn_frame; eassumption | exact Hs].
Qed.

Lemma session_state_run hist ok s :
  creates_when_idle E hist s = true -> session_state ok s ->
  session_state (settled E hist s ok) (run_moves E hist s).
Proof.
  revert ok s. induction hist as [|m hist IH]; intros ok s Hg Hs; [exact Hs|].
  cbn [creates_when_idle] in Hg. apply andb_true_iff in Hg as [Hm Hg].
  change (session_state (settled E hist (exec_move E m s) (settles E m s ok))
            (run_moves E hist (exec_move E m s))).
  apply IH; [exact Hg|]. now apply session_state_exec.
Qed.

(** The invariant of the specification, read off the store. *)
Lemma session_state_inv ok s :
  session_state ok s ->
  session_inv s <-> ok = true /\ poll_task_crashed s = false.
Proof.
  intros (Ha & Hb & He & Hc & Hd). unfold session_inv, poll_task_crashed.
  split.
  - intros [Hiff Huniq]. split.
    + destruct ok; [reflexivity|]. destruct (Hd eq_refl) as [Hset Hnone].
      apply Hiff in Hset as [t Hl]. apply Ha in Hl as [Hl _]. congruence.
    + destruct (_poll_task s) as [t|] eqn:Hp; [|reflexivity].
      destruct (tasks s !! t) as [[| |e]|] eqn:Ht; try reflexivity.
      exfalso. assert (Hset : _session_url s <> None) by (apply He; discriminate).
      apply Hiff in Hset as [t' Hl]. pose proof (Ha t' Hl) as [Hl' _].
      unfold live in Hl. congruence.
  - intros [-> Hcr]. split.
    + split.
      * intros Hset. destruct (Hc eq_refl Hset) as (t & Hp & [Hl|[e He']]).
        -- eauto.
        -- rewrite Hp, He' in Hcr. discriminate.
      * intros [t Hl]. apply Ha in Hl. tauto.
    + intros t t' Hl Hl'. apply Ha in Hl as [Hl _]. apply Ha in Hl' as [Hl' _].
      congruence.
Qed.

End SessionState.

(** ** The registry *)

Section RegistryFacts.
Implicit Types (r : list (value * nat)) (k : value) (h : nat).

Lemma find_elem k r h :
  Registry.find k r = Some h ->
  exists k', (k', h) ∈ r /\ py_eq k k' = true.
Proof.
  induction r as [|[k0 h0] r IH]; simpl; [discriminate|].
  destruct (py_eq k k0) eqn:Heq.
  - intros [= ->]. exists k0. split; [apply elem_of_cons; now left | exact Heq].
  - intros H. destruct (IH H) as (k' & Hin & Hk).
    exists k'. split; [apply elem_of_cons; now right | exact Hk].
Qed.

Lemma find_None k r :
  Registry.find k r = None <-> forall k' h, (k', h) ∈ r -> py_eq k k' = false.
Proof.
  induction r as [|[k0 h0] r IH]; simpl.
  - split; [intros _ k' h Hin; inversion Hin | reflexivity].
  - destruct (py_eq k k0) eqn:Heq.
    + split; [discriminate|]. intros H.
      rewrite (H k0 h0) in Heq; [discriminate | apply elem_of_cons; now left].
    + rewrite IH. split.
      * intros H k' h Hin. apply elem_of_cons in Hin as [[= -> ->]|Hin];
          [exact Heq | eapply H, Hin].
      * intros H k' h Hin. eapply H, elem_of_cons. right. exact Hin.
Qed.

Lemma store_elem k h r k1 h1 :
  (k1, h1) ∈ Registry.store k h r -> h1 = h \/ (k1, h1) ∈ r.
Proof.
  induction r as [|[k0 h0] r IH]; simpl.
  - intros Hin. apply list_elem_of_singleton in Hin as [= _ ->]. now left.
  - destruct (py_eq k k0).
    + intros Hin. apply elem_of_cons in Hin as [[= _ ->]|Hin]; [now left|].
      right. apply elem_of_cons. now right.
    + intros Hin. apply elem_of_cons in Hin as [[= -> ->]|Hin].
      * right. apply elem_of_cons. now left.
      * destruct (IH Hin) as [->|Hr]; [now left|].
        right. apply elem_of_cons. now right.
Qed.

Lemma store_refs k h r x :
  x ∈ snd <$> Registry.store k h r -> x = h \/ x ∈ snd <$> r.
Proof.
  intros Hin. apply list_elem_of_fmap in Hin as ([k1 h1] & -> & Hin).
  apply store_elem in Hin as [->|Hin]; [now left|].
  right. apply list_elem_of_fmap. exists (k1, h1). split; [reflexivity|exact Hin].
Qed.

Lemma store_NoDup k h r :
  h ∉ snd <$> r -> NoDup (snd <$> r) -> NoDup (snd <$> Registry.store k h r).
Proof.
  induction r as [|[k0 h0] r IH]; simpl; intros Hfresh Hnd.
  - apply NoDup_singleton.
  - apply NoDup_cons in Hnd as [Hh0 Hnd].
    apply not_elem_of_cons in Hfresh as [Hne Hfresh].
    destruct (py_eq k k0); simpl.
    + apply NoDup_cons. split; assumption.
    + apply NoDup_cons. split; [|apply IH; assumption].
      intros Hin. apply store_refs in Hin as [->|Hin]; [congruence | contradiction].
Qed.

(** An object is registered under one id only. *)
Lemma registry_one_id r k k' h :
  NoDup (snd <$> r) -> (k, h) ∈ r -> (k', h) ∈ r -> k = k'.
Proof.
  induction r as [|[k0 h0] r IH]; intros Hnd H1 H2; [inversion H1|].
  rewrite fmap_cons in Hnd. simpl in Hnd.
  apply NoDup_cons in Hnd as [Hh0 Hnd].
  assert (Hsnd : forall k1, (k1, h0) ∈ r -> False).
  { intros k1 Hin. apply Hh0. apply list_elem_of_fmap.
    exists (k1, h0). split; [reflexivity | exact Hin]. }
  apply elem_of_cons in H1 as [E1|H1]; apply elem_of_cons in H2 as [E2|H2].
  - congruence.
  - exfalso. injection E1 as -> ->. eapply Hsnd, H2.
  - exfalso. injection E2 as -> ->. eapply Hsnd, H1.
  - eapply IH; eauto.
Qed.

End RegistryFacts.

(** ** What each step does to the heap and the registry *)

Section HeapFacts.
Variable E : Env.

Lemma create_heap s :
  heap (snd (create E s)) = heap s /\ _plugins (snd (create E s)) = _plugins s.
Proof. unfold create. py_cases; split; reflexivity. Qed.

Lemma destroy_remote_heap s :
  heap (snd (destroy_remote E s)) = heap s /\
  _plugins (snd (destroy_remote E s)) = _plugins s.
Proof. unfold destroy_remote. py_cases; split; reflexivity. Qed.

Lemma destroy_heap s :
  heap (snd (destroy E s)) = heap s /\ _plugins (snd (destroy E s)) = _plugins s.
Proof.
  rewrite destroy_unfold.
  set (s1 := match _poll_task s with
             | Some t => set_poll_task None (cancel t s)
             | None => s
             end).
  assert (H1 : heap s1 = heap s /\ _plugins s1 = _plugins s).
  { unfold s1. destruct (_poll_task s); [|split; reflexivity].
    st_simpl. pose proof (cancel_fields n s). tauto. }
  destruct H1 as [<- <-]. clearbody s1.
  pose proof (destroy_remote_heap s1) as [Hh Hp].
  destruct (destroy_remote E s1) as [[[]|e] s2]; simpl in *; [|auto].
  rewrite close_http_spec. destruct (_http s2); st_simpl; auto.
Qed.

(** [attach] fails before line 114, or makes a plugin object and then
    either registers it or fails on an unhashable id. *)
Lemma attach_cases name s :
  let s' := snd (attach E name s) in
  (heap s' = heap s /\ _plugins s' = _plugins s) \/
  (exists p, heap s' = heap s ++ [p] /\ _queue p = [] /\
     (_plugins s' = _plugins s \/
      exists k, _plugins s' = Registry.store k (length (heap s)) (_plugins s))).
Proof.
  unfold attach, Registry.setitem.
  py_cases; try (left; split; reflexivity);
    right; eexists; (split; [reflexivity|]); (split; [reflexivity|]);
    first [left; reflexivity | right; eexists; reflexivity].
Qed.

(** A turn of the poll loop leaves the heap as it is or appends the
    received message to the inbox of the plugin found under its
    sender. *)
Lemma poll_once_cases s :
  let s' := snd (poll_once E s) in
  heap s' = heap s \/
  exists data sender h p,
    get_reply E (n_get s) = Json data /\
    subscript data "sender" = Ok sender /\
    Registry.find sender (_plugins s) = Some h /\
    heap s !! h = Some p /\
    heap s' = <[h := {| _queue := _queue p ++ [data]; _url := _url p |}]> (heap s).
Proof.
  unfold poll_once, Registry.get. py_step. unfold set_queue.
  py_cases; try (left; reflexivity).
  all: try match goal with H : Some _ = Some _ |- _ => injection H as <- end.
  all: right; do 4 eexists; repeat split; eauto.
Qed.

Lemma poll_step_cases t s :
  let s' := poll_step E t s in
  heap s' = heap s \/
  exists data sender h p,
    get_reply E (n_get s) = Json data /\
    subscript data "sender" = Ok sender /\
    Registry.find sender (_plugins s) = Some h /\
    heap s !! h = Some p /\
    heap s' = <[h := {| _queue := _queue p ++ [data]; _url := _url p |}]> (heap s).
Proof.
  unfold poll_step. pose proof (poll_once_cases s) as H.
  destruct (tasks s !! t) as [[]|]; try (left; reflexivity).
  destruct (poll_once E s) as [[|e] s1]; exact H.
Qed.

End HeapFacts.

(** ** The inbox invariant along a history *)

Section InboxFacts.
Variable E : Env.

(** A step that keeps the registry and only removes items from the
    inboxes of the objects that were there keeps the invariant. *)
Lemma inbox_ok_shrink s s' :
  _plugins s' = _plugins s ->
  length (heap s) <= length (heap s') ->
  (forall h p', h < length (heap s) -> heap s' !! h = Some p' ->
     exists p, heap s !! h = Some p /\ forall x, x ∈ _queue p' -> x ∈ _queue p) ->
  registry_ok s /\ inbox_ok s -> registry_ok s' /\ inbox_ok s'.
Proof.
  intros Hp Hlen Hq [[Hrange Hnd] Hin]. unfold registry_ok, inbox_ok.
  rewrite Hp. repeat split.
  - intros k h Hk. apply Hrange in Hk. lia.
  - exact Hnd.
  - intros P h p' x HP Hh Hx.
    destruct (Hq h p' (Hrange _ _ HP) Hh) as (p & Hhp & Hsub).
    eapply Hin; eauto.
Qed.

Lemma inbox_ok_same_heap s s' :
  _plugins s' = _plugins s -> heap s' = heap s ->
  registry_ok s /\ inbox_ok s -> registry_ok s' /\ inbox_ok s'.
Proof.
  intros Hp Hh. apply inbox_ok_shrink; [exact Hp | now rewrite Hh |].
  intros h p' _ Hl. rewrite Hh in Hl. eauto.
Qed.

Lemma inbox_ok_attach name s :
  registry_ok s /\ inbox_ok s ->
  registry_ok (snd (attach E name s)) /\ inbox_ok (snd (attach E name s)).
Proof.
  intros Hok.
  destruct (attach_cases E name s)
    as [[Hh Hp]|(p & Hh & Hq & [Hp|[k Hp]])].
  - eapply inbox_ok_same_heap; eauto.
  - revert Hok. apply inbox_ok_shrink; [exact Hp | |].
    + rewrite Hh, length_app. lia.
    + intros h p' Hlt Hl. rewrite Hh, lookup_app_l in Hl by exact Hlt. eauto.
  - destruct Hok as [[Hrange Hnd] Hin].
    unfold registry_ok, inbox_ok. rewrite Hp, Hh. repeat split.
    + intros k1 h1 Hk. rewrite length_app. simpl.
      apply store_elem in Hk as [->|Hk]; [lia|]. apply Hrange in Hk. lia.
    + apply store_NoDup; [|exact Hnd].
      intros Hfresh. apply list_elem_of_fmap in Hfresh as ([k1 h1] & Heq & Hk).
      simpl in Heq. subst h1. apply Hrange in Hk. lia.
    + intros P h p' x HP Hl Hx.
      apply store_elem in HP as [->|HP].
      * rewrite lookup_app_r in Hl by lia. rewrite Nat.sub_diag in Hl.
        injection Hl as <-. rewrite Hq in Hx. inversion Hx.
      * rewrite lookup_app_l in Hl by (eapply Hrange; eauto).
        eapply Hin; eauto.
Qed.

Lemma inbox_ok_poll t s :
  registry_ok s /\ inbox_ok s ->
  registry_ok (poll_step E t s) /\ inbox_ok (poll_step E t s).
Proof.
  intros Hok.
  destruct (poll_step_frame E t s) as (_ & _ & Hp & _).
  destruct (poll_step_cases E t s)
    as [Hh|(data & sender & h0 & p0 & Hr & Hs & Hf & Hl0 & Hh)].
  - eapply inbox_ok_same_heap; eauto.
  - destruct Hok as [[Hrange Hnd] Hin].
    unfold registry_ok, inbox_ok. rewrite Hp, Hh. repeat split.
    + intros k h Hk. rewrite length_insert. eauto.
    + exact Hnd.
    + intros P h p' x HP Hl Hx.
      destruct (decide (h = h0)) as [->|Hne].
      * rewrite list_lookup_insert_eq in Hl by (eapply lookup_lt_Some; eauto).
        injection Hl as <-. simpl in Hx.
        apply elem_of_app in Hx as [Hx|Hx].
        -- eapply Hin; eauto.
        -- apply list_elem_of_singleton in Hx as ->.
           apply find_elem in Hf as (k' & Hk' & Heq).
           rewrite (registry_one_id _ _ _ _ Hnd HP Hk'). eauto.
      * rewrite list_lookup_insert_ne in Hl by congruence.
        eapply Hin; eauto.
Qed.

Lemma inbox_ok_recv h msg s r s' :
  send_recv h msg s = Some (r, s') ->
  registry_ok s /\ inbox_ok s -> registry_ok s' /\ inbox_ok s'.
Proof.
  intros Hr.
  pose proof (send_recv_frame h msg s r s' Hr) as (_ & _ & _ & Hp).
  destruct (heap s !! h) as [self|] eqn:Hh.
  - destruct (_queue self) as [|item rest] eqn:Hq.
    + unfold send_recv in Hr. rewrite Hh, Hq in Hr. discriminate.
    + rewrite (send_recv_item h msg s self item rest Hh Hq) in Hr.
      injection Hr as _ <-.
      apply inbox_ok_shrink; [exact Hp | |].
      * unfold set_queue. rewrite Hh. st_simpl. now rewrite length_insert.
      * intros h1 p' _ Hl. unfold set_queue in Hl. rewrite Hh in Hl.
        st_simpl. destruct (decide (h1 = h)) as [->|Hne].
        -- rewrite list_lookup_insert_eq in Hl by (eapply lookup_lt_Some; eauto).
           injection Hl as <-. exists self. split; [exact Hh|].
           simpl. intros x Hx. rewrite Hq. apply elem_of_cons. now right.
        -- rewrite list_lookup_insert_ne in Hl by congruence. eauto.
  - unfold send_recv in Hr. rewrite Hh in Hr. injection Hr as _ <-. exact id.
Qed.

Lemma inbox_ok_exec a s :
  registry_ok s /\ inbox_ok s ->
  registry_ok (exec E a s) /\ inbox_ok (exec E a s).
Proof.
  destruct a as [|name| |t|h payload|h msg]; simpl.
  - destruct (create_heap E s). now apply inbox_ok_same_heap.
  - apply inbox_ok_attach.
  - destruct (destroy_heap E s). now apply inbox_ok_same_heap.
  - apply inbox_ok_poll.
  - destruct (send_post_frame E h payload s) as (_ & _ & _ & ? & ?).
    now apply inbox_ok_same_heap.
  - destruct (send_recv h msg s) as [[r s']|] eqn:Hr; [|exact id].
    eapply inbox_ok_recv, Hr.
Qed.

Lemma inbox_ok_run acts s :
  registry_ok s /\ inbox_ok s ->
  registry_ok (run E acts s) /\ inbox_ok (run E acts s).
Proof.
  revert s. induction acts as [|a acts IH]; intros s H; simpl; [exact H|].
  apply IH, inbox_ok_exec, H.
Qed.

Lemma inbox_ok_reachable url s :
  reachable E url s -> registry_ok s /\ inbox_ok s.
Proof.
  intros [acts ->]. apply inbox_ok_run.
  unfold registry_ok, inbox_ok. simpl. repeat split.
  - intros k h H. inversion H.
  - apply NoDup_nil_2.
  - intros P h p x H. inversion H.
Qed.

End InboxFacts.

(** ** The poll loop on an event *)

Lemma py_eq_int a b : py_eq (VInt a) (VInt b) = true <-> a = b.
Proof. simpl. apply Z.eqb_eq. Qed.

(** Lines 147-156 on an "event" whose sender can be looked up. *)
Lemma poll_once_event E s c u data sender :
  _http s = Some c ->
  _session_url s = Some u ->
  get_reply E (n_get s) = Json data ->
  janus_is "event" data = true ->
  subscript data "sender" = Ok sender ->
  hashable sender = true ->
  poll_once E s
  = let s1 := emit (EPrint data)
                (tick_get (emit (EGet c u 1 (clock E (n_get s))) s)) in
    match Registry.find sender (_plugins s) with
    | Some h =>
        match heap s !! h with
        | Some p => (Ok tt, set_queue h (_queue p ++ [data]) s1)
        | None => (Raise AttributeError, s1)
        end
    | None => (Ok tt, emit (EPrint data) s1)
    end.
Proof.
  intros Hc Hu Hr Hj Hs Hh. unfold janus_is in Hj.
  destruct (subscript data "janus") as [j|] eqn:Hjj; [|discriminate].
  unfold poll_once, Registry.get.
  repeat (py_step; rewrite ?Hc, ?Hu, ?Hr, ?Hjj, ?Hj, ?Hs, ?Hh).
  destruct (Registry.find sender (_plugins s)) as [h|]; [|reflexivity].
  py_step. destruct (heap s !! h); reflexivity.
Qed.

(** * The properties of the specification *)

(** ** Correlation *)

(** C1, as the code has it.  Once the POST of a [send] is acknowledged
    with message [msg]: a value the call returns was the oldest item of
    the handle's inbox when the call was resumed, is removed from it,
    and carries the "transaction" of [msg]; that is the id generated
    for the call whenever the payload has no "transaction" of its own;
    an oldest item with another "transaction" makes the call raise
    [AssertionError], the item removed and not put back. *)
Theorem send_correlates :
  forall E h payload s msg s0,
    send_post E h payload s = (Ok msg, s0) ->
    exists t',
      Dict.get "transaction" msg = Some t' /\
      (Dict.get "transaction" payload = None -> t' = VStr (rng E (n_id s))) /\
      (forall sched r s',
          send E h payload sched s = (Returned r, s') ->
          exists k self rest t,
            let s1 := polls E (take k sched) s0 in
            heap s1 !! h = Some self /\ _queue self = r :: rest /\
            s' = set_queue h rest s1 /\
            subscript r "transaction" = Ok t /\ py_eq t t' = true) /\
      (forall sched s1 self item rest t,
          heap s1 !! h = Some self ->
          _queue self = item :: rest ->
          subscript item "transaction" = Ok t ->
          py_eq t t' = false ->
          await_inbox E sched h msg s1
          = (Raised AssertionError, set_queue h rest s1)).
Proof.
  intros E h payload s msg s0 Hpost.
  pose proof (send_post_message E h payload s msg s0 Hpost) as Hmsg.
  destruct (envelope_has_transaction (rng E (n_id s)) payload) as [t' Ht'].
  rewrite <- Hmsg in Ht'.
  exists t'. split; [exact Ht'|]. split; [|split].
  - intros Hnone. subst msg. unfold envelope in Ht'.
    rewrite get_update_other in Ht' by exact Hnone.
    simpl in Ht'. congruence.
  - intros sched r s' Hsend. unfold send in Hsend. rewrite Hpost in Hsend.
    apply await_inbox_returned in Hsend
      as (k & self & rest & t & t0 & Hh & Hq & Hs' & Ht & Ht0 & Heq).
    exists k, self, rest, t. simpl. rewrite Ht0 in Ht'.
    injection Ht' as ->. auto.
  - intros sched s1 self item rest t Hh Hq Ht Hne.
    eapply await_inbox_mismatch; eauto.
Qed.

(** The call of the echo scenario is an instance. *)
Lemma send_correlates_witness :
  exists t',
    Dict.get "transaction" (envelope "cccccccccccc" [("ping", VInt 1)]) = Some t' /\
    t' = VStr "cccccccccccc".
Proof.
  destruct (send_correlates Mock.echo 0 [("ping", VInt 1)] Scenario.attached
              (envelope "cccccccccccc" [("ping", VInt 1)])
              (snd (send_post Mock.echo 0 [("ping", VInt 1)] Scenario.attached)))
    as (t' & Hget & Hgen & _).
  - vm_compute. reflexivity.
  - exists t'. split; [exact Hget|]. apply Hgen. reflexivity.
Defined.

(** C1 as written fails: a payload with its own "transaction" is
    answered, [send] returns, and the event's transaction is not the
    generated id. *)
Lemma correlation_counterexample : ~ correlation_as_stated.
Proof.
  intros H.
  destruct (H Scenario.forged 0 [("transaction", VStr "X")] [0]
              Scenario.forged_attached
              (Mock.event (VInt 10) "X")
              (snd (send Scenario.forged 0 [("transaction", VStr "X")] [0]
                      Scenario.forged_attached)))
    as (t & Ht & Heq).
  - vm_compute. reflexivity.
  - vm_compute in Ht. injection Ht as <-. vm_compute in Heq. discriminate.
Qed.

(** ** Teardown when the gateway fails *)

(** C2, as the code has it.  When the remote destroy fails the poll
    task has already been cancelled and [self._poll_task] cleared, the
    exception reaches the caller, and lines 139-143 are not run: the
    session URL stays, the client stays open and is not closed. *)
Theorem destroy_remote_failure_propagates :
  forall E s c t u,
    _http s = Some c ->
    _poll_task s = Some t ->
    _session_url s = Some u ->
    truthy (Some u) = true ->
    post_fails E s ->
    exists e s',
      destroy E s = (Raise e, s') /\
      ~ live s' t /\ _poll_task s' = None /\
      _session_url s' = Some u /\ _http s' = Some c /\
      log s' = log s ++ [ECancel t;
                         EPost c u [("janus", VStr "destroy");
                                    ("transaction", VStr (rng E (n_id s)))]].
Proof.
  intros E s c t u Hc Hp Hu Ht Hf.
  pose proof (cancel_fields t s) as (Fh & _ & Fu & _ & _ & Fn & Fi & Fl).
  set (s1 := set_poll_task None (cancel t s)).
  destruct (destroy_remote_failure E s1 c u) as [e He].
  - unfold s1. st_simpl. congruence.
  - unfold s1. st_simpl. congruence.
  - exact Ht.
  - unfold post_fails, s1 in *. st_simpl. now rewrite Fn.
  - exists e. eexists. split.
    { rewrite destroy_unfold, Hp. fold s1. rewrite He. reflexivity. }
    unfold s1. st_simpl. rewrite Fh, Fu, Fl, Fi, <- app_assoc.
    repeat split; try assumption.
    intros Hl. unfold live in Hl. st_simpl.
    apply (cancel_live t s t) in Hl as [_ Hne]. congruence.
Qed.

(** [destroy] during an outage is an instance. *)
Lemma destroy_remote_failure_propagates_witness :
  exists e s',
    destroy Outage.env Outage.created = (Raise e, s') /\
    _session_url s' = Some "http://localhost:8088/janus/1" /\
    _http s' = Some 0.
Proof.
  destruct (destroy_remote_failure_propagates Outage.env Outage.created 0 0
              "http://localhost:8088/janus/1")
    as (e & s' & Hd & _ & _ & Hu & Hh & _);
    try reflexivity; try (vm_compute; exact I).
  exists e, s'. repeat split; assumption.
Defined.

(** C2 as written fails: with the gateway gone after [create],
    [destroy] leaves the client open. *)
Lemma teardown_counterexample : ~ teardown_as_stated.
Proof.
  intros H.
  destruct (H Outage.env Outage.created 0 0) as (_ & _ & Hh & _);
    try reflexivity; try (vm_compute; exact I).
  vm_compute in Hh. discriminate.
Qed.

(** ** Isolation *)

(** C3. In every store a history can reach, the inbox of the handle
    registered under id [P] holds only items whose "sender" equals
    [P]; whenever a turn of the poll loop changes a plugin object, it
    has appended the received message to its inbox, and the object is
    registered under an id that the message's "sender" equals; and a
    turn that receives a message with sender [P1] leaves alone the
    handle registered under any [P2] that [P1] does not equal.
    Equality is Python's [==], which is what the registry lookup
    uses; on integers it is equality. *)
Theorem inbox_isolation :
  forall E url s,
    reachable E url s ->
    inbox_ok s /\
    (forall t h p',
        heap (poll_step E t s) !! h = Some p' ->
        heap s !! h <> Some p' ->
        exists p data sender P,
          heap s !! h = Some p /\
          get_reply E (n_get s) = Json data /\
          _queue p' = _queue p ++ [data] /\
          subscript data "sender" = Ok sender /\
          (P, h) ∈ _plugins s /\ py_eq sender P = true) /\
    (forall t data P1 P2 h2,
        get_reply E (n_get s) = Json data ->
        subscript data "sender" = Ok P1 ->
        (P2, h2) ∈ _plugins s ->
        py_eq P1 P2 = false ->
        heap (poll_step E t s) !! h2 = heap s !! h2).
Proof.
  intros E url s Hreach.
  destruct (inbox_ok_reachable E url s Hreach) as [[Hrange Hnd] Hin].
  split; [exact Hin|]. split.
  - intros t h p' Hl Hchanged.
    destruct (poll_step_cases E t s)
      as [Hsame|(data & sender & h0 & p0 & Hr & Hs & Hf & Hl0 & Hh)].
    { rewrite Hsame in Hl. contradiction. }
    rewrite Hh in Hl. destruct (decide (h = h0)) as [->|Hne].
    + rewrite list_lookup_insert_eq in Hl by (eapply lookup_lt_Some; eauto).
      injection Hl as <-.
      apply find_elem in Hf as (P & HP & Heq).
      exists p0, data, sender, P. repeat split; assumption.
    + rewrite list_lookup_insert_ne in Hl by congruence. contradiction.
  - intros t data P1 P2 h2 Hr Hs HP2 Hne.
    destruct (poll_step_cases E t s)
      as [->|(data' & sender & h0 & p0 & Hr' & Hs' & Hf & Hl0 & ->)];
      [reflexivity|].
    rewrite Hr in Hr'. injection Hr' as <-.
    rewrite Hs in Hs'. injection Hs' as <-.
    apply find_elem in Hf as (k' & Hk' & Heq).
    destruct (decide (h0 = h2)) as [->|Hdiff].
    + rewrite (registry_one_id _ _ _ _ Hnd HP2 Hk') in Hne. congruence.
    + now apply list_lookup_insert_ne.
Qed.

(** The store of the echo scenario after the event has come in. *)
Lemma inbox_isolation_witness :
  inbox_ok (run Mock.echo [ACreate; AAttach "echo"; APoll 0] (init Mock.root)).
Proof.
  exact (proj1 (inbox_isolation Mock.echo Mock.root _
                  (ex_intro _ [ACreate; AAttach "echo"; APoll 0] eq_refl))).
Defined.

(** ** Idempotent teardown *)

(** C4. [destroy] is idempotent: on a session that was never created
    it does nothing, and after a [destroy] that returned a second one
    returns too and changes nothing at all: no request, no log entry,
    poll task, session URL and client all [None]. *)
Theorem destroy_idempotent :
  forall E url,
    destroy E (init url) = (Ok tt, init url) /\
    forall s s',
      reachable E url s ->
      destroy E s = (Ok tt, s') ->
      destroy E s' = (Ok tt, s') /\
      _poll_task s' = None /\ _session_url s' = None /\ _http s' = None.
Proof.
  intros E url. split; [reflexivity|].
  intros s s' Hreach Hd.
  pose proof (reachable_url_ok E url s Hreach) as Hok.
  apply destroy_returns in Hd as (Hp & Ht & Hu & Hh & _).
  assert (Hnone : _session_url s' = None).
  { apply truthy_false_None; [|exact Ht].
    destruct Hu as [->| ->]; [discriminate | exact Hok]. }
  repeat split; try assumption.
  rewrite destroy_unfold, Hp, (destroy_remote_skip E s') by exact Ht.
  rewrite close_http_spec, Hh. reflexivity.
Qed.

(** Two calls of [destroy] in succession at the end of a session. *)
Lemma destroy_idempotent_witness :
  destroy Scenario.teardown Scenario.torn_down = (Ok tt, Scenario.torn_down) /\
  _poll_task Scenario.torn_down = None /\
  _session_url Scenario.torn_down = None /\
  _http Scenario.torn_down = None.
Proof.
  assert (Hreach : reachable Scenario.teardown Mock.root Scenario.teardown_attached).
  { exists [ACreate; AAttach "echo"]. vm_compute. reflexivity. }
  assert (Hd : destroy Scenario.teardown Scenario.teardown_attached
               = (Ok tt, Scenario.torn_down)).
  { vm_compute. reflexivity. }
  exact (proj2 (destroy_idempotent Scenario.teardown Mock.root)
           Scenario.teardown_attached Scenario.torn_down Hreach Hd).
Defined.

(** ** The session invariant, along the histories *)

(** C5, as the code keeps it.  Take any history of calls of [create],
    [attach], [destroy] and [send], with the turns the poll loop takes
    between the calls and while a call waits for its request, in which
    every [create] that returns was called while no poll loop was
    running.  After it a running poll task is the one in
    [self._poll_task] and the session URL is set, so at most one poll
    loop runs.  The invariant of the specification, "the URL is set
    iff a poll loop is running, and at most one is", holds after the
    history exactly when no [destroy] has raised since the last
    [create] or [destroy] that returned and the task in
    [self._poll_task] has not ended on an exception. *)
Theorem session_invariant_along_histories :
  forall E url hist,
    creates_when_idle E hist (init url) = true ->
    let s := run_moves E hist (init url) in
    (forall t, live s t -> _poll_task s = Some t /\ _session_url s <> None) /\
    (forall t t', live s t -> live s t' -> t = t') /\
    (session_inv s <->
     settled E hist (init url) true = true /\ poll_task_crashed s = false).
Proof.
  intros E url hist Hg s.
  assert (Hs : session_state (settled E hist (init url) true) s).
  { apply session_state_run; [exact Hg | apply session_state_init]. }
  pose proof Hs as (Ha & _).
  split; [exact Ha|]. split.
  - intros t t' Hl Hl'. apply Ha in Hl as [Hl _]. apply Ha in Hl' as [Hl' _].
    congruence.
  - apply session_state_inv, Hs.
Qed.

(** The echo scenario on the event loop: [create], then [attach] while
    the poll loop takes a turn (the event for plugin 10 comes in before
    the plugin is registered), then one more turn.  The session URL is
    set and task 0 runs. *)
Lemma session_invariant_along_histories_witness :
  let hist := [MCreate []; MAttach "echo" [0]; MPoll 0] in
  let s := run_moves Mock.echo hist (init Mock.root) in
  creates_when_idle Mock.echo hist (init Mock.root) = true /\
  live s 0 /\
  _session_url s = Some "http://localhost:8088/janus/1" /\
  session_inv s.
Proof.
  intros hist s.
  assert (Hg : creates_when_idle Mock.echo hist (init Mock.root) = true)
    by (vm_compute; reflexivity).
  split; [exact Hg|]. split; [vm_compute; reflexivity|].
  split; [vm_compute; reflexivity|].
  apply (proj2 (proj2 (proj2
           (session_invariant_along_histories Mock.echo Mock.root hist Hg)))).
  split; vm_compute; reflexivity.
Defined.

(** The GET of the poll loop is refused while [attach] waits for its
    reply: the task ends, [attach] returns the handle, and the session
    URL is set with no poll loop running. *)
Example poll_failure_during_attach :
  let E := Mock.env [Json (Mock.success 1); Json (Mock.success 10)]
                    [Refused 502] in
  let r := attach_across E "echo" [0] (snd (create E (init Mock.root))) in
  fst r = Ok 0 /\
  _session_url (snd r) = Some "http://localhost:8088/janus/1" /\
  tasks (snd r) = [Crashed (ClientError 502)].
Proof. vm_compute. repeat split. Qed.

(** [create] called again while the poll loop runs: two loops. *)
Example create_twice_two_loops :
  let E := Mock.env [Json (Mock.success 1); Json (Mock.success 2)] [] in
  let s := run E [ACreate; ACreate] (init Mock.root) in
  tasks s = [Running; Running] /\ _poll_task s = Some 1.
Proof. vm_compute. split; reflexivity. Qed.

(** A [create] that returns after a [destroy] that raised: the
    invariant holds again. *)
Example create_after_failed_destroy :
  let E := Mock.env [Json (Mock.success 1); Refused 503; Json (Mock.success 2)] [] in
  let s := run E [ACreate; ADestroy; ACreate] (init Mock.root) in
  _session_url s = Some "http://localhost:8088/janus/2" /\
  tasks s = [Cancelled; Running] /\ _poll_task s = Some 1.
Proof. vm_compute. repeat split. Qed.

(** C5 as written fails: [create], then a [destroy] that the gateway
    does not answer, leaves the session URL set and no task running. *)
Lemma invariant_counterexample : ~ invariant_as_stated.
Proof.
  intros H.
  destruct (H Outage.env Mock.root [ACreate; ADestroy]) as [[Hex _] _].
  { repeat constructor. }
  destruct Hex as [t Ht].
  - vm_compute. discriminate.
  - unfold live in Ht. vm_compute in Ht.
    destruct t as [|[|t]]; discriminate.
Qed.

(** ** Orphan events *)

(** C6, as the code has it.  An event whose sender is a value that
    can be a dictionary key and is the id of no registered plugin is
    printed and dropped: the poll task keeps running, no inbox
    changes, and the next event, for a registered plugin, is appended
    to that plugin's inbox. *)
Theorem orphan_event_discarded :
  forall E t s c u data sender,
    live s t ->
    _http s = Some c ->
    _session_url s = Some u ->
    get_reply E (n_get s) = Json data ->
    janus_is "event" data = true ->
    subscript data "sender" = Ok sender ->
    hashable sender = true ->
    unregistered sender s ->
    let s' := poll_step E t s in
    live s' t /\ heap s' = heap s /\ _plugins s' = _plugins s /\
    log s' = log s ++ [EGet c u 1 (clock E (n_get s)); EPrint data; EPrint data] /\
    (forall data2 sender2 h p,
        get_reply E (S (n_get s)) = Json data2 ->
        janus_is "event" data2 = true ->
        subscript data2 "sender" = Ok sender2 ->
        hashable sender2 = true ->
        Registry.find sender2 (_plugins s) = Some h ->
        heap s !! h = Some p ->
        let s'' := poll_step E t s' in
        live s'' t /\
        heap s'' = <[h := {| _queue := _queue p ++ [data2]; _url := _url p |}]> (heap s)).
Proof.
  intros E t s c u data sender Hl Hc Hu Hr Hj Hs Hh Hun s'.
  apply find_None in Hun.
  assert (Hs' : s' = emit (EPrint data)
                       (emit (EPrint data)
                          (tick_get (emit (EGet c u 1 (clock E (n_get s))) s)))).
  { unfold s', poll_step. rewrite Hl.
    rewrite (poll_once_event E s c u data sender) by assumption.
    simpl. now rewrite Hun. }
  rewrite Hs'. st_simpl. split; [exact Hl|]. split; [reflexivity|].
  split; [reflexivity|]. split; [now rewrite <- !app_assoc|].
  intros data2 sender2 h p Hr2 Hj2 Hs2 Hh2 Hf Hp.
  unfold poll_step. unfold live in Hl. st_simpl. rewrite Hl.
  rewrite (poll_once_event E _ c u data2 sender2) by (st_simpl; assumption).
  st_simpl. rewrite Hf, Hp. unfold set_queue, live. st_simpl. rewrite Hp.
  st_simpl. split; [exact Hl | reflexivity].
Qed.

(** The event of plugin 99 of the scenario is an instance. *)
Lemma orphan_event_discarded_witness :
  live (poll_step Scenario.orphan 0 Scenario.orphan_attached) 0 /\
  heap (poll_step Scenario.orphan 0 Scenario.orphan_attached)
  = heap Scenario.orphan_attached.
Proof.
  destruct (orphan_event_discarded Scenario.orphan 0 Scenario.orphan_attached
              0 "http://localhost:8088/janus/1"
              (Mock.event (VInt 99) "T") (VInt 99))
    as (Hl & Hh & _); try reflexivity.
  - intros k h Hin. vm_compute in Hin.
    apply list_elem_of_singleton in Hin. injection Hin as -> ->. reflexivity.
  - split; assumption.
Defined.

(** C6 as written fails: a sender that is a list matches no
    registered id, and the lookup raises [TypeError], which ends the
    poll task. *)
Lemma orphan_counterexample : ~ orphan_as_stated.
Proof.
  intros H.
  destruct (H Scenario.listed 0 Scenario.listed_attached
              0 "http://localhost:8088/janus/1"
              (Mock.event (VList [VInt 10]) "T") (VList [VInt 10]))
    as (Hl & _); try reflexivity.
  - intros k h Hin. vm_compute in Hin.
    apply list_elem_of_singleton in Hin. injection Hin as -> ->. reflexivity.
  - unfold live in Hl. vm_compute in Hl. discriminate.
Qed.

(** ** Acknowledgement *)

(** C7. [send] whose POST is answered with a [janus] field other than
    "ack" raises [AssertionError] at once: one POST was made, with the
    envelope of this call, and no inbox was touched. *)
Theorem send_requires_ack :
  forall E h payload sched s c self data j,
    _http s = Some c ->
    heap s !! h = Some self ->
    post_reply E (n_post s) = Json data ->
    subscript data "janus" = Ok j ->
    py_eq j (VStr "ack") = false ->
    exists s',
      send E h payload sched s = (Raised AssertionError, s') /\
      heap s' = heap s /\
      log s' = log s ++ [EPost c (_url self) (envelope (rng E (n_id s)) payload)] /\
      n_post s' = S (n_post s) /\
      n_get s' = n_get s.
Proof.
  intros E h payload sched s c self data j Hc Hh Hr Hj Hne.
  eexists. unfold send, send_post.
  repeat (py_step; rewrite ?Hh, ?Hc, ?Hr, ?Hj, ?Hne).
  repeat split; reflexivity.
Qed.

(** The nacked call of the scenario is an instance. *)
Lemma send_requires_ack_witness :
  exists s',
    send Scenario.nack 0 [("ping", VInt 1)] [0] Scenario.nack_attached
    = (Raised AssertionError, s') /\
    heap s' = heap Scenario.nack_attached.
Proof.
  destruct (send_requires_ack Scenario.nack 0 [("ping", VInt 1)] [0]
              Scenario.nack_attached 0
              {| _queue := []; _url := "http://localhost:8088/janus/1/10" |}
              (VDict [("janus", VStr "error")]) (VStr "error"))
    as (s' & Hs & Hheap & _); try reflexivity.
  exists s'. split; assumption.
Defined.

(** ** Session creation *)

(** C8. [create] opens a client and POSTs {"janus": "create",
    "transaction": id} to the root URL.  On a "success" reply carrying
    a session id it sets the session URL to root + "/" + str(id) and
    starts one poll task; when the request fails, the reply is not a
    success, or a success reply carries no id, the exception reaches
    the caller and no task is started. *)
Theorem create_starts_session :
  forall E s,
    let c := n_http s in
    let root := _root_url s in
    let body := [("janus", VStr "create"); ("transaction", VStr (rng E (n_id s)))] in
    let posted := log s ++ [EOpen c; EPost c root body] in
    (forall data d sid,
        post_reply E (n_post s) = Json data ->
        janus_is "success" data = true ->
        subscript data "data" = Ok d ->
        subscript d "id" = Ok sid ->
        exists s',
          create E s = (Ok tt, s') /\
          _session_url s' = Some (root +:+ "/" +:+ py_str E sid) /\
          _poll_task s' = Some (length (tasks s)) /\
          tasks s' = tasks s ++ [Running] /\
          log s' = posted ++ [ESpawn (length (tasks s))]) /\
    (forall code,
        post_reply E (n_post s) = Refused code ->
        exists s',
          create E s = (Raise (ClientError code), s') /\
          tasks s' = tasks s /\ _poll_task s' = _poll_task s /\
          _session_url s' = _session_url s /\ log s' = posted) /\
    (forall data,
        post_reply E (n_post s) = Json data ->
        janus_is "success" data = false ->
        exists e s',
          create E s = (Raise e, s') /\
          tasks s' = tasks s /\ _poll_task s' = _poll_task s /\
          _session_url s' = _session_url s /\ log s' = posted) /\
    (forall data,
        post_reply E (n_post s) = Json data ->
        janus_is "success" data = true ->
        (forall d sid, subscript data "data" = Ok d -> subscript d "id" <> Ok sid) ->
        exists e s',
          create E s = (Raise e, s') /\
          tasks s' = tasks s /\ _poll_task s' = _poll_task s /\
          _session_url s' = _session_url s /\ log s' = posted).
Proof.
  intros E s c root body posted. unfold janus_is.
  split; [|split; [|split]].
  - intros data d sid Hr Hj Hd Hid.
    destruct (subscript data "janus") as [j|] eqn:Hjj; [|discriminate].
    eexists. unfold create.
    repeat (py_step; rewrite ?Hr, ?Hjj, ?Hj, ?Hd, ?Hid).
    repeat split; st_simpl; unfold posted; rewrite <- ?app_assoc; reflexivity.
  - intros code Hr. eexists. unfold create.
    repeat (py_step; rewrite ?Hr).
    repeat split; st_simpl; unfold posted; rewrite <- ?app_assoc; reflexivity.
  - intros data Hr Hj.
    destruct (subscript data "janus") as [j|e] eqn:Hjj.
    + exists AssertionError. eexists. unfold create.
      repeat (py_step; rewrite ?Hr, ?Hjj, ?Hj).
      repeat split; st_simpl; unfold posted; rewrite <- ?app_assoc; reflexivity.
    + exists e. eexists. unfold create.
      repeat (py_step; rewrite ?Hr, ?Hjj).
      repeat split; st_simpl; unfold posted; rewrite <- ?app_assoc; reflexivity.
  - intros data Hr Hj Hnoid.
    destruct (subscript data "janus") as [j|] eqn:Hjj; [|discriminate].
    destruct (subscript data "data") as [d|e] eqn:Hd.
    + destruct (subscript d "id") as [sid|e] eqn:Hid.
      { exfalso. apply (Hnoid d sid); [reflexivity | exact Hid]. }
      exists e. eexists. unfold create.
      repeat (py_step; rewrite ?Hr, ?Hjj, ?Hj, ?Hd, ?Hid).
      repeat split; st_simpl; unfold posted; rewrite <- ?app_assoc; reflexivity.
    + exists e. eexists. unfold create.
      repeat (py_step; rewrite ?Hr, ?Hjj, ?Hj, ?Hd).
      repeat split; st_simpl; unfold posted; rewrite <- ?app_assoc; reflexivity.
Qed.

(** The first call of the echo scenario is an instance. *)
Lemma create_starts_session_witness :
  exists s',
    create Mock.echo (init Mock.root) = (Ok tt, s') /\
    _session_url s' = Some "http://localhost:8088/janus/1" /\
    _poll_task s' = Some 0 /\
    tasks s' = [Running].
Proof.
  destruct (proj1 (create_starts_session Mock.echo (init Mock.root))
              (Mock.success 1) (VDict [("id", VInt 1)]) (VInt 1))
    as (s' & Hc & Hu & Hp & Ht & _); try reflexivity.
  exists s'. repeat split; assumption.
Defined.

(** ** The payload in the envelope *)

(** C9. The payload is merged into the envelope last.  For an
    acknowledged [send]: the posted body is the envelope; every key of
    the payload has the payload's value in it, "transaction" and
    "janus" included; with a "transaction" in the payload the check of
    line 92 compares the inbox item with that value; and a payload with
    neither key is appended to the two fields as they were set. *)
Theorem payload_overrides_envelope :
  forall E h payload s c self data j,
    NoDup (Dict.keys payload) ->
    _http s = Some c ->
    heap s !! h = Some self ->
    post_reply E (n_post s) = Json data ->
    subscript data "janus" = Ok j ->
    py_eq j (VStr "ack") = true ->
    let tid := rng E (n_id s) in
    let msg := envelope tid payload in
    exists s0,
      send_post E h payload s = (Ok msg, s0) /\
      log s0 = log s ++ [EPost c (_url self) msg] /\
      (forall k v, Dict.get k payload = Some v -> Dict.get k msg = Some v) /\
      (forall v, Dict.get "transaction" payload = Some v ->
         forall s1 self1 item rest t,
           heap s1 !! h = Some self1 ->
           _queue self1 = item :: rest ->
           subscript item "transaction" = Ok t ->
           send_recv h msg s1
           = Some (if py_eq t v then Ok item else Raise AssertionError,
                   set_queue h rest s1)) /\
      (Dict.get "janus" payload = None ->
       Dict.get "transaction" payload = None ->
       msg = [("janus", VStr "message"); ("transaction", VStr tid)] ++ payload).
Proof.
  intros E h payload s c self data j Hnd Hc Hh Hr Hj Hack tid msg.
  assert (Hover : forall k v, Dict.get k payload = Some v ->
                              Dict.get k msg = Some v).
  { intros k v Hk. unfold msg, envelope. rewrite get_update by exact Hnd.
    now rewrite Hk. }
  eexists. split; [apply (send_post_ack E h payload s c self data j); assumption|].
  split; [reflexivity|]. split; [exact Hover|]. split.
  - intros v Hv s1 self1 item rest t Hh1 Hq Ht.
    rewrite (send_recv_item h msg s1 self1 item rest Hh1 Hq), Ht.
    now rewrite (Hover _ _ Hv).
  - intros Hj0 Ht0. unfold msg, envelope. apply update_disjoint; [exact Hnd|].
    intros k Hk. simpl.
    destruct (String.eqb_spec k "janus") as [->|_].
    { apply get_None_keys in Hj0. contradiction. }
    destruct (String.eqb_spec k "transaction") as [->|_]; [|reflexivity].
    apply get_None_keys in Ht0. contradiction.
Qed.

(** The call with a forged "transaction" is an instance: "X" is posted
    and "X" is what the inbox item is compared with. *)
Lemma payload_overrides_envelope_witness :
  Dict.get "transaction" (envelope "cccccccccccc" [("transaction", VStr "X")])
  = Some (VStr "X").
Proof.
  destruct (payload_overrides_envelope Scenario.forged 0
              [("transaction", VStr "X")] Scenario.forged_attached
              0 {| _queue := []; _url := "http://localhost:8088/janus/1/10" |}
              Mock.ack (VStr "ack"))
    as (s0 & _ & _ & Hover & _).
  - apply NoDup_singleton.
  - reflexivity.
  - reflexivity.
  - reflexivity.
  - reflexivity.
  - reflexivity.
  - apply Hover. reflexivity.
Defined.

(** ** Events without a sender *)

(** C10. An "event" message without a "sender" key makes the turn
    raise [KeyError]: nothing is delivered, the poll task ends with
    that exception and takes no further turn. *)
Theorem poll_event_without_sender :
  forall E t s c u d j,
    tasks s !! t = Some Running ->
    _http s = Some c ->
    _session_url s = Some u ->
    get_reply E (n_get s) = Json (VDict d) ->
    Dict.get "janus" d = Some j ->
    py_eq j (VStr "event") = true ->
    Dict.get "sender" d = None ->
    fst (poll_once E s) = Raise (KeyError "sender") /\
    tasks (poll_step E t s) !! t = Some (Crashed (KeyError "sender")) /\
    heap (poll_step E t s) = heap s /\
    forall n, _poll E n t (poll_step E t s) = poll_step E t s.
Proof.
  intros E t s c u d j Ht Hc Hu Hr Hj Hev Hs.
  assert (Hone : poll_once E s =
                 (Raise (KeyError "sender"),
                  emit (EPrint (VDict d))
                    (tick_get (emit (EGet c u 1 (clock E (n_get s))) s)))).
  { unfold poll_once, subscript.
    repeat (py_step; rewrite ?Hc, ?Hu, ?Hr, ?Hj, ?Hev, ?Hs). reflexivity. }
  assert (Hlt : t < length (tasks s)) by (eapply lookup_lt_Some; eauto).
  assert (Hdead : tasks (poll_step E t s) !! t = Some (Crashed (KeyError "sender"))).
  { unfold poll_step. rewrite Ht, Hone. st_simpl.
    apply list_lookup_insert_eq, Hlt. }
  split; [rewrite Hone; reflexivity|].
  split; [exact Hdead|].
  split.
  - unfold poll_step. rewrite Ht, Hone. reflexivity.
  - intros n. apply _poll_idle. rewrite Hdead. discriminate.
Qed.

(** The event without sender of the scenario is an instance. *)
Lemma poll_event_without_sender_witness :
  tasks (poll_step Scenario.senderless 0 Scenario.senderless_attached) !! 0
  = Some (Crashed (KeyError "sender")).
Proof.
  apply (poll_event_without_sender Scenario.senderless 0
           Scenario.senderless_attached 0 "http://localhost:8088/janus/1"
           [("janus", VStr "event"); ("transaction", VStr "T")] (VStr "event"));
    reflexivity.
Defined.

(** * Further properties of the code *)

(** ** [transaction_id] *)

Lemma length_string_of_list_ascii l :
  String.length (string_of_list_ascii l) = length l.
Proof. induction l as [|c l IH]; simpl; congruence. Qed.

(** The code of the i-th letter of [string.ascii_letters]. *)
Lemma code_of_choice i :
  i < 52 ->
  Ascii.nat_of_ascii (Token.choice Token.ascii_letters i)
  = if Nat.ltb i 26 then 97 + i else 39 + i.
Proof.
  intros H. do 52 (destruct i as [|i]; [reflexivity|]). lia.
Qed.

(** X1. A transaction id has twelve characters, each of them an ASCII
    letter, whatever the generator draws. *)
Theorem transaction_id_format :
  forall draw,
    (forall x, x < 12 -> draw x < 52) ->
    String.length (Token.transaction_id draw) = 12 /\
    Forall (fun c => Token.is_letter c = true)
           (list_ascii_of_string (Token.transaction_id draw)).
Proof.
  intros draw Hdraw. unfold Token.transaction_id. split.
  - now rewrite length_string_of_list_ascii, length_map, length_seq.
  - rewrite list_ascii_of_string_of_list_ascii.
    apply Forall_forall. intros c Hc.
    apply list_elem_of_In, in_map_iff in Hc as (x & <- & Hx).
    apply in_seq in Hx. unfold Token.is_letter.
    rewrite code_of_choice by (apply Hdraw; lia).
    pose proof (Hdraw x ltac:(lia)) as Hlt.
    destruct (Nat.ltb_spec (draw x) 26).
    + replace (Nat.leb 97 (97 + draw x)) with true
        by (symmetry; apply Nat.leb_le; lia).
      replace (Nat.leb (97 + draw x) 122) with true
        by (symmetry; apply Nat.leb_le; lia).
      reflexivity.
    + replace (Nat.leb 65 (39 + draw x)) with true
        by (symmetry; apply Nat.leb_le; lia).
      replace (Nat.leb (39 + draw x) 90) with true
        by (symmetry; apply Nat.leb_le; lia).
      apply orb_true_r.
Qed.

(** Twelve draws of index 0. *)
Lemma transaction_id_format_witness :
  String.length (Token.transaction_id (fun _ => 0)) = 12.
Proof.
  apply (transaction_id_format (fun _ => 0)). intros x _. lia.
Defined.

(** X2. Two transaction ids are equal only if the twelve draws behind
    them are the same: no two indices give the same letter. *)
Theorem transaction_id_injective :
  forall draw draw',
    (forall x, x < 12 -> draw x < 52) ->
    (forall x, x < 12 -> draw' x < 52) ->
    Token.transaction_id draw = Token.transaction_id draw' ->
    forall x, x < 12 -> draw x = draw' x.
Proof.
  intros draw draw' Hd Hd' Heq x Hx. unfold Token.transaction_id in Heq.
  apply (f_equal list_ascii_of_string) in Heq.
  rewrite !list_ascii_of_string_of_list_ascii in Heq.
  assert (Hc : Token.choice Token.ascii_letters (draw x)
               = Token.choice Token.ascii_letters (draw' x)).
  { apply (proj1 map_ext_in_iff Heq x). apply in_seq. lia. }
  apply (f_equal Ascii.nat_of_ascii) in Hc.
  rewrite !code_of_choice in Hc by auto.
  pose proof (Hd x Hx). pose proof (Hd' x Hx).
  destruct (Nat.ltb_spec (draw x) 26), (Nat.ltb_spec (draw' x) 26); lia.
Qed.

(** Two ids that differ in the first draw. *)
Lemma transaction_id_injective_witness :
  Token.transaction_id (fun _ => 0) <> Token.transaction_id (fun x => x).
Proof.
  intros Heq.
  pose proof (transaction_id_injective (fun _ => 0) (fun x => x)
                ltac:(intros; simpl; lia) ltac:(intros; simpl; lia) Heq 1
                ltac:(lia)) as H.
  discriminate H.
Defined.

(** ** [OpenCVVideoStreamTrack.recv] *)

Section TrackFacts.
Variable cam : Track.Camera.

Lemma recv_fails s :
  Track.last_frame s = None ->
  Track.read cam (Track.n_read s) = None ->
  Track.recv cam s
  = (Raise AttributeError,
     {| Track.counter := Track.counter s; Track.last_frame := None;
        Track.frames := Track.frames s;
        Track.n_read := S (Track.n_read s);
        Track.n_stamp := S (Track.n_stamp s) |}).
Proof.
  intros Hl Hr. unfold Track.recv, Track.read_frame.
  destruct (Track.next_timestamp cam (Track.n_stamp s)) as [p tb].
  simpl. rewrite Hr. simpl. rewrite Hl. reflexivity.
Qed.

(** With a frame at hand [recv] returns, and keeps a frame at hand. *)
Lemma recv_returns s r :
  Track.last_frame s = Some r ->
  r < length (Track.frames s) ->
  exists r' s',
    Track.recv cam s = (Ok r', s') /\
    Track.last_frame s' = Some r' /\
    r' < length (Track.frames s') /\
    Track.counter s' = S (Track.counter s) /\
    Track.n_read s' = S (Track.n_read s).
Proof.
  intros Hl Hr. unfold Track.recv, Track.read_frame.
  destruct (Track.next_timestamp cam (Track.n_stamp s)) as [p tb]. simpl.
  destruct (Track.read cam (Track.n_read s)) as [img|]; simpl.
  - eexists _, _. split; [reflexivity|]. simpl. repeat split.
    unfold Track.stamp.
    destruct (_ !! _); rewrite ?length_insert, length_app; simpl; lia.
  - rewrite Hl. eexists _, _. split; [reflexivity|]. simpl. repeat split.
    unfold Track.stamp.
    destruct (_ !! _); rewrite ?length_insert; exact Hr.
Qed.

End TrackFacts.

(** X3. As long as the camera has delivered no image, every [recv]
    raises [AttributeError] ([last_frame] was never assigned) and the
    counter does not move. *)
Theorem recv_before_first_frame :
  forall cam n s,
    Track.last_frame s = None ->
    (forall k, k < n -> Track.read cam (Track.n_read s + k) = None) ->
    fst (Track.recv_many cam n s) = repeat (Raise AttributeError) n /\
    Track.counter (snd (Track.recv_many cam n s)) = Track.counter s /\
    Track.last_frame (snd (Track.recv_many cam n s)) = None.
Proof.
  intros cam n. induction n as [|n IH]; intros s Hl Hr; simpl.
  - auto.
  - rewrite recv_fails; [|exact Hl|].
    2:{ rewrite <- (Nat.add_0_r (Track.n_read s)). apply Hr. lia. }
    match goal with
    | |- context [Track.recv_many cam n ?s1] =>
        destruct (IH s1) as (Hres & Hc & Hl');
        [reflexivity
        |intros k Hk; simpl;
         replace (S (Track.n_read s + k)) with (Track.n_read s + S k) by lia;
         apply Hr; lia
        |destruct (Track.recv_many cam n s1) as [rs s2]]
    end.
    simpl in *. rewrite Hres. auto.
Qed.

(** A camera that is not there: three calls, three errors. *)
Lemma recv_before_first_frame_witness :
  fst (Track.recv_many
         {| Track.read := fun _ => None;
            Track.next_timestamp := fun n => (Z.of_nat n, (1, 90000)%Z) |}
         3 Track.new)
  = [Raise AttributeError; Raise AttributeError; Raise AttributeError].
Proof.
  apply (recv_before_first_frame
           {| Track.read := fun _ => None;
              Track.next_timestamp := fun n => (Z.of_nat n, (1, 90000)%Z) |}
           3 Track.new).
  - reflexivity.
  - reflexivity.
Defined.

(** X4. When the camera read fails, [recv] returns the very frame
    object it returned last, after overwriting its [pts] and
    [time_base]: whoever still holds the earlier frame sees the new
    timestamp.  No frame object is made. *)
Theorem recv_repeats_last_frame :
  forall cam s r f,
    Track.last_frame s = Some r ->
    Track.frames s !! r = Some f ->
    Track.read cam (Track.n_read s) = None ->
    let '(p, tb) := Track.next_timestamp cam (Track.n_stamp s) in
    exists s',
      Track.recv cam s = (Ok r, s') /\
      Track.frames s'
      = <[r := {| Track.image := Track.image f; Track.pts := Some p;
                  Track.time_base := Some tb |}]> (Track.frames s) /\
      length (Track.frames s') = length (Track.frames s) /\
      Track.counter s' = S (Track.counter s).
Proof.
  intros cam s r f Hl Hf Hr. unfold Track.recv, Track.read_frame.
  destruct (Track.next_timestamp cam (Track.n_stamp s)) as [p tb]. simpl.
  rewrite Hr. simpl. rewrite Hl.
  eexists. split; [reflexivity|]. simpl. unfold Track.stamp. rewrite Hf.
  repeat split. apply length_insert.
Qed.

(** One image, then a failed read: the second call returns object 0
    again, now stamped 3000. *)
Lemma recv_repeats_last_frame_witness :
  let cam := {| Track.read := fun n => if Nat.eqb n 0 then Some 7 else None;
                Track.next_timestamp := fun n => ((3000 * Z.of_nat n)%Z, (1, 90000)%Z) |} in
  exists s',
    Track.recv cam (snd (Track.recv cam Track.new)) = (Ok 0, s') /\
    Track.frames s'
    = [{| Track.image := 7; Track.pts := Some 3000%Z;
          Track.time_base := Some (1, 90000)%Z |}].
Proof.
  intros cam.
  destruct (recv_repeats_last_frame cam (snd (Track.recv cam Track.new)) 0
              {| Track.image := 7; Track.pts := Some 0%Z;
                 Track.time_base := Some (1, 90000)%Z |}
              eq_refl eq_refl eq_refl)
    as (s' & Hrecv & Hframes & _).
  exists s'. split; [exact Hrecv | exact Hframes].
Defined.

(** X5. When the camera delivers an image, [recv] makes a new frame
    object for it, stamps it and returns it; the frames made before
    are left as they were. *)
Theorem recv_fresh_frame :
  forall cam s img,
    Track.read cam (Track.n_read s) = Some img ->
    let '(p, tb) := Track.next_timestamp cam (Track.n_stamp s) in
    exists s',
      Track.recv cam s = (Ok (length (Track.frames s)), s') /\
      Track.frames s'
      = Track.frames s ++ [{| Track.image := img; Track.pts := Some p;
                              Track.time_base := Some tb |}] /\
      Track.counter s' = S (Track.counter s).
Proof.
  intros cam s img Hr. unfold Track.recv, Track.read_frame.
  destruct (Track.next_timestamp cam (Track.n_stamp s)) as [p tb]. simpl.
  rewrite Hr. simpl.
  eexists. split; [reflexivity|]. simpl. split; [|reflexivity].
  unfold Track.stamp. rewrite lookup_app_r by lia. rewrite Nat.sub_diag. simpl.
  rewrite insert_app_r_alt by lia. rewrite Nat.sub_diag. reflexivity.
Qed.

(** The first image of a camera. *)
Lemma recv_fresh_frame_witness :
  let cam := {| Track.read := fun _ => Some 7;
                Track.next_timestamp := fun n => (Z.of_nat n, (1, 90000)%Z) |} in
  exists s', Track.recv cam Track.new = (Ok 0, s').
Proof.
  intros cam.
  destruct (recv_fresh_frame cam Track.new 7 eq_refl) as (s' & Hrecv & _).
  exists s'. exact Hrecv.
Defined.

(** X6. Once one image has been read, [recv] never raises again,
    whatever the camera does, and the counter counts the calls. *)
Theorem recv_after_first_frame :
  forall cam n s r,
    Track.last_frame s = Some r ->
    r < length (Track.frames s) ->
    Forall (fun x => Track.returned x = true) (fst (Track.recv_many cam n s)) /\
    length (fst (Track.recv_many cam n s)) = n /\
    Track.counter (snd (Track.recv_many cam n s)) = Track.counter s + n.
Proof.
  intros cam n. induction n as [|n IH]; intros s r Hl Hr; simpl.
  - repeat split; [constructor | lia].
  - destruct (recv_returns cam s r Hl Hr) as (r' & s1 & -> & Hl1 & Hr1 & Hc & _).
    destruct (IH s1 r' Hl1 Hr1) as (Hall & Hlen & Hcount).
    destruct (Track.recv_many cam n s1) as [rs s2]. simpl in *.
    repeat split; [constructor; [reflexivity | exact Hall] | lia | lia].
Qed.

(** A camera that works once and then fails. *)
Lemma recv_after_first_frame_witness :
  let cam := {| Track.read := fun n => if Nat.eqb n 0 then Some 7 else None;
                Track.next_timestamp := fun n => (Z.of_nat n, (1, 90000)%Z) |} in
  Track.counter (snd (Track.recv_many cam 5 (snd (Track.recv cam Track.new))))
  = 1 + 5.
Proof.
  intros cam.
  apply (recv_after_first_frame cam 5 (snd (Track.recv cam Track.new)) 0).
  - reflexivity.
  - simpl. lia.
Defined.

(** ** [==] on values that can be keys *)

Ltac py_eq_solve :=
  repeat match goal with
         | H : Z.eqb _ _ = true |- _ => apply Z.eqb_eq in H
         | H : String.eqb _ _ = true |- _ => apply String.eqb_eq in H
         | H : Bool.eqb _ _ = true |- _ => apply Bool.eqb_prop in H
         end;
  subst; try reflexivity; try discriminate.

Lemma py_eq_refl a : hashable a = true -> py_eq a a = true.
Proof.
  destruct a; simpl; intros H; try discriminate; try reflexivity.
  - apply Bool.eqb_reflx.
  - apply Z.eqb_refl.
  - apply String.eqb_refl.
Qed.

Lemma py_eq_hashable a b :
  hashable a = true -> py_eq a b = true -> hashable b = true.
Proof. destruct a, b; simpl; intros; try discriminate; reflexivity. Qed.

Lemma py_eq_sym a b : hashable a = true -> py_eq a b = py_eq b a.
Proof.
  destruct a, b; simpl; intros H; try discriminate; try reflexivity.
  - destruct b, b0; reflexivity.
  - apply Z.eqb_sym.
  - apply Z.eqb_sym.
  - apply Z.eqb_sym.
  - apply String.eqb_sym.
Qed.

(** Two keys that are equal compare alike with everything. *)
Lemma py_eq_congr a b c :
  hashable a = true -> py_eq a b = true -> py_eq a c = py_eq b c.
Proof.
  destruct a, b; simpl; intros Ha Hab; try discriminate;
    destruct c; simpl; py_eq_solve.
  all: try (destruct b; destruct b0; simpl in *; py_eq_solve).
Qed.

Section RegistryLaws.
Implicit Types (r : list (value * nat)) (k : value) (h : nat).

Lemma find_congr k k' r :
  hashable k = true -> py_eq k k' = true ->
  Registry.find k r = Registry.find k' r.
Proof.
  intros Hk Heq. induction r as [|[k0 h0] r IH]; simpl; [reflexivity|].
  now rewrite (py_eq_congr k k' k0 Hk Heq), IH.
Qed.

(** Lookup after [plugins[k] = h]. *)
Lemma find_store k h r k' :
  hashable k = true -> hashable k' = true ->
  Registry.find k' (Registry.store k h r)
  = if py_eq k' k then Some h else Registry.find k' r.
Proof.
  intros Hk Hk'. induction r as [|[k0 h0] r IH]; simpl.
  - reflexivity.
  - destruct (py_eq k k0) eqn:Hkk0; simpl.
    + rewrite (py_eq_sym k' k Hk'), (py_eq_congr k k0 k' Hk Hkk0).
      rewrite <- (py_eq_sym k' k0 Hk'). destruct (py_eq k' k0); reflexivity.
    + rewrite IH. destruct (py_eq k' k0) eqn:Hk'k0; [|reflexivity].
      destruct (py_eq k' k) eqn:Hk'k; [|reflexivity].
      rewrite (py_eq_sym k k0 Hk), <- (py_eq_congr k' k0 k Hk' Hk'k0) in Hkk0.
      congruence.
Qed.

End RegistryLaws.

(** ** [attach] *)

Section AttachFacts.
Variable E : Env.

(** Lines 104-116 when the gateway answers with an id that can be a key. *)
Lemma attach_ok name s c u data pid :
  _http s = Some c ->
  _session_url s = Some u ->
  post_reply E (n_post s) = Json data ->
  carries_id data pid ->
  hashable pid = true ->
  attach E name s
  = (Ok (length (heap s)),
     set_plugins (Registry.store pid (length (heap s)) (_plugins s))
       (set_heap (heap s ++ [{| _queue := []; _url := u +:+ "/" +:+ py_str E pid |}])
          (tick_post
             (emit (EPost c u [("janus", VStr "attach"); ("plugin", VStr name);
                               ("transaction", VStr (rng E (n_id s)))])
                (tick_id s))))).
Proof.
  intros Hc Hu Hr (Hj & d & Hd & Hid) Hh. unfold janus_is in Hj.
  destruct (subscript data "janus") as [j|] eqn:Hjj; [|discriminate].
  unfold attach, Registry.setitem.
  repeat (py_step; rewrite ?Hc, ?Hu, ?Hr, ?Hjj, ?Hj, ?Hd, ?Hid, ?Hh).
  reflexivity.
Qed.

(** Lines 118-127 when the gateway answers with an id. *)
Lemma create_ok s data sid :
  post_reply E (n_post s) = Json data ->
  carries_id data sid ->
  create E s
  = (Ok tt,
     set_poll_task (Some (length (tasks s)))
       (emit (ESpawn (length (tasks s)))
          (set_tasks (tasks s ++ [Running])
             (set_session_url (Some (_root_url s +:+ "/" +:+ py_str E sid))
                (tick_post
                   (emit (EPost (n_http s) (_root_url s)
                            [("janus", VStr "create");
                             ("transaction", VStr (rng E (n_id s)))])
                      (tick_id
                         (set_http (Some (n_http s))
                            (tick_http (emit (EOpen (n_http s)) s)))))))))).
Proof.
  intros Hr (Hj & d & Hd & Hid). unfold janus_is in Hj.
  destruct (subscript data "janus") as [j|] eqn:Hjj; [|discriminate].
  unfold create.
  repeat (py_step; rewrite ?Hr, ?Hjj, ?Hj, ?Hd, ?Hid).
  reflexivity.
Qed.

End AttachFacts.

(** X7. An [attach] that the gateway answers with id [pid] makes a new
    handle with an empty inbox and the URL session URL + "/" +
    str(pid), after one POST of the attach message to the session URL;
    from then on the id, and every key equal to it, is looked up to
    the new handle, also when another handle had the id before, and
    every other key to what it was looked up to before. *)
Theorem attach_registers :
  forall E name s c u data pid,
    _http s = Some c ->
    _session_url s = Some u ->
    post_reply E (n_post s) = Json data ->
    carries_id data pid ->
    hashable pid = true ->
    let h := length (heap s) in
    exists s',
      attach E name s = (Ok h, s') /\
      heap s' = heap s ++ [{| _queue := []; _url := u +:+ "/" +:+ py_str E pid |}] /\
      log s' = log s ++ [EPost c u [("janus", VStr "attach"); ("plugin", VStr name);
                                    ("transaction", VStr (rng E (n_id s)))]] /\
      (forall k, hashable k = true ->
         Registry.find k (_plugins s')
         = if py_eq k pid then Some h else Registry.find k (_plugins s)).
Proof.
  intros E name s c u data pid Hc Hu Hr Hid Hh h.
  eexists. split; [apply (attach_ok E name s c u data pid); assumption|].
  st_simpl. repeat split. intros k Hk. now apply find_store.
Qed.

(** The attach of the echo scenario. *)
Lemma attach_registers_witness :
  exists s',
    attach Mock.echo "echo" (snd (create Mock.echo (init Mock.root))) = (Ok 0, s') /\
    heap s' = [{| _queue := []; _url := "http://localhost:8088/janus/1/10" |}].
Proof.
  destruct (attach_registers Mock.echo "echo"
              (snd (create Mock.echo (init Mock.root)))
              0 "http://localhost:8088/janus/1" (Mock.success 10) (VInt 10))
    as (s' & Ha & Hheap & _); try reflexivity.
  - split; [reflexivity|]. exists (VDict [("id", VInt 10)]). split; reflexivity.
  - exists s'. split; [exact Ha | exact Hheap].
Defined.

(** X8. An [attach] that raises registers nothing: the registry is as
    it was and every plugin object that existed is untouched. *)
Theorem attach_failure_registers_nothing :
  forall E name s e s',
    attach E name s = (Raise e, s') ->
    _plugins s' = _plugins s /\
    forall h p, heap s !! h = Some p -> heap s' !! h = Some p.
Proof.
  intros E name s e s'. unfold attach, Registry.setitem.
  py_cases; intros H; try discriminate; injection H as _ <-; st_simpl;
    (split; [reflexivity|]); intros h p Hp; try exact Hp.
  apply lookup_app_l_Some, Hp.
Qed.

(** The gateway gone after [create]: [attach] raises. *)
Lemma attach_failure_registers_nothing_witness :
  _plugins (snd (attach Outage.env "echo" Outage.created)) = [].
Proof.
  apply (attach_failure_registers_nothing Outage.env "echo" Outage.created
           (ClientError 503) (snd (attach Outage.env "echo" Outage.created))).
  vm_compute. reflexivity.
Defined.

(** X9. [attach] on a session without a client or without a session
    URL (never created, torn down, or left by a failed [create])
    raises before anything is sent: no request, no plugin object, no
    registration. *)
Theorem attach_without_session :
  forall E name s,
    _http s = None \/ _session_url s = None ->
    exists e s',
      attach E name s = (Raise e, s') /\
      log s' = log s /\ n_post s' = n_post s /\
      heap s' = heap s /\ _plugins s' = _plugins s.
Proof.
  intros E name s H. unfold attach.
  destruct (_http s) as [c|] eqn:Hc.
  - destruct H as [H|H]; [discriminate|].
    exists TypeError. eexists.
    repeat (py_step; rewrite ?Hc, ?H). repeat split.
  - exists AttributeError. eexists.
    repeat (py_step; rewrite ?Hc). repeat split.
Qed.

(** [attach] on a session that was never created. *)
Lemma attach_without_session_witness :
  exists e s',
    attach Mock.echo "echo" (init Mock.root) = (Raise e, s') /\ log s' = [].
Proof.
  destruct (attach_without_session Mock.echo "echo" (init Mock.root))
    as (e & s' & Ha & Hlog & _).
  - left. reflexivity.
  - exists e, s'. split; [exact Ha | exact Hlog].
Defined.

(** ** [destroy] and [create], composed *)

Section TeardownFacts.
Variable E : Env.

Lemma destroy_remote_tasks s :
  tasks (snd (destroy_remote E s)) = tasks s /\
  _poll_task (snd (destroy_remote E s)) = _poll_task s /\
  _http (snd (destroy_remote E s)) = _http s.
Proof. unfold destroy_remote. py_cases; repeat split; congruence. Qed.

(** Whatever [destroy] does, the only task it can stop is the one in
    [self._poll_task]. *)
Lemma destroy_live s t :
  live (snd (destroy E s)) t <-> live s t /\ _poll_task s <> Some t.
Proof.
  rewrite destroy_unfold.
  set (s1 := match _poll_task s with
             | Some t => set_poll_task None (cancel t s)
             | None => s
             end).
  assert (H1 : live s1 t <-> live s t /\ _poll_task s <> Some t).
  { unfold s1. destruct (_poll_task s) as [t0|] eqn:Hp.
    - unfold live. st_simpl. rewrite (cancel_live t0 s t).
      split; intros [? ?]; split; congruence.
    - split; [intros H; split; [exact H | discriminate] | tauto]. }
  rewrite <- H1. clearbody s1. unfold live.
  pose proof (destroy_remote_tasks s1) as (Ht & _).
  destruct (destroy_remote E s1) as [[[]|e] s2]; simpl in *.
  - rewrite close_http_spec. destruct (_http s2); st_simpl; now rewrite Ht.
  - now rewrite Ht.
Qed.

(** [destroy] of a session with a client and a URL, confirmed by the
    gateway. *)
Lemma destroy_ok s c u data :
  _http s = Some c ->
  _session_url s = Some u ->
  truthy (Some u) = true ->
  post_reply E (n_post s) = Json data ->
  janus_is "success" data = true ->
  exists s',
    destroy E s = (Ok tt, s') /\
    _poll_task s' = None /\ _session_url s' = None /\ _http s' = None /\
    n_post s' = S (n_post s) /\
    log s' = log s
             ++ match _poll_task s with Some t => [ECancel t] | None => [] end
             ++ [EPost c u [("janus", VStr "destroy");
                            ("transaction", VStr (rng E (n_id s)))];
                 EClose c].
Proof.
  intros Hc Hu Ht Hr Hj. rewrite destroy_unfold.
  destruct (_poll_task s) as [t|] eqn:Hp.
  - pose proof (cancel_fields t s) as (Fh & _ & Fu & _ & _ & Fn & Fi & Fl).
    pose proof (destroy_remote_success E (set_poll_task None (cancel t s))
                  c u data) as Hs.
    st_simpl. rewrite Fh, Fu, Fn in Hs. rewrite (Hs Hc Hu Ht Hr Hj).
    rewrite close_http_spec. st_simpl. rewrite Fh, Hc.
    eexists. split; [reflexivity|]. st_simpl.
    rewrite ?Fn, ?Fi, ?Fl, <- ?app_assoc. repeat split; try reflexivity.
  - rewrite (destroy_remote_success E s c u data) by assumption.
    rewrite close_http_spec. st_simpl. rewrite Hc.
    eexists. split; [reflexivity|]. st_simpl.
    rewrite <- ?app_assoc. repeat split; try reflexivity. exact Hp.
Qed.

(** What a [create] that raises leaves: the client it opened. *)
Lemma create_raises s e s1 :
  create E s = (Raise e, s1) ->
  _http s1 = Some (n_http s) /\ _poll_task s1 = _poll_task s /\
  _session_url s1 = _session_url s /\ tasks s1 = tasks s /\
  n_http s1 = S (n_http s).
Proof.
  unfold create.
  py_cases; intros H; try discriminate; injection H as _ <-; st_simpl;
    repeat split.
Qed.

End TeardownFacts.

(** X10. [destroy] of a session with a client and a URL, when the
    gateway confirms: the poll task is cancelled if there is one, one
    destroy message is POSTed to the session URL, the client is
    closed, in that order, and the three fields are [None]. *)
Theorem destroy_tears_down :
  forall E s c u data,
    _http s = Some c ->
    _session_url s = Some u ->
    truthy (Some u) = true ->
    post_reply E (n_post s) = Json data ->
    janus_is "success" data = true ->
    exists s',
      destroy E s = (Ok tt, s') /\
      _poll_task s' = None /\ _session_url s' = None /\ _http s' = None /\
      (forall t, _poll_task s = Some t -> ~ live s' t) /\
      log s' = log s
               ++ match _poll_task s with Some t => [ECancel t] | None => [] end
               ++ [EPost c u [("janus", VStr "destroy");
                              ("transaction", VStr (rng E (n_id s)))];
                   EClose c].
Proof.
  intros E s c u data Hc Hu Ht Hr Hj.
  destruct (destroy_ok E s c u data Hc Hu Ht Hr Hj)
    as (s' & Hd & Hp & Hs & Hh & _ & Hlog).
  exists s'. repeat split; try assumption.
  intros t Heq Hl.
  assert (Hl' : live (snd (destroy E s)) t) by now rewrite Hd.
  apply destroy_live in Hl' as [_ Hne]. contradiction.
Qed.

(** The end of a session whose gateway confirms the destroy. *)
Lemma destroy_tears_down_witness :
  exists s',
    destroy Scenario.teardown Scenario.teardown_attached = (Ok tt, s') /\
    _http s' = None.
Proof.
  destruct (destroy_tears_down Scenario.teardown Scenario.teardown_attached
              0 "http://localhost:8088/janus/1"
              (VDict [("janus", VStr "success")]))
    as (s' & Hd & _ & _ & Hh & _); try reflexivity.
  exists s'. split; [exact Hd | exact Hh].
Defined.

(** X11. A [destroy] that failed can be called again: when the
    gateway confirms the second time, the second call POSTs the
    destroy message again, clears the session URL and closes the
    client, without cancelling anything a second time. *)
Theorem destroy_retry_completes :
  forall E s c t u data,
    _http s = Some c ->
    _poll_task s = Some t ->
    _session_url s = Some u ->
    truthy (Some u) = true ->
    post_fails E s ->
    post_reply E (S (n_post s)) = Json data ->
    janus_is "success" data = true ->
    exists e s1 s2,
      destroy E s = (Raise e, s1) /\
      destroy E s1 = (Ok tt, s2) /\
      _poll_task s2 = None /\ _session_url s2 = None /\ _http s2 = None /\
      log s2 = log s ++ [ECancel t;
                         EPost c u [("janus", VStr "destroy");
                                    ("transaction", VStr (rng E (n_id s)))];
                         EPost c u [("janus", VStr "destroy");
                                    ("transaction", VStr (rng E (S (n_id s))))];
                         EClose c].
Proof.
  intros E s c t u data Hc Hp Hu Ht Hf Hr Hj.
  pose proof (cancel_fields t s) as (Fh & _ & Fu & _ & _ & Fn & Fi & Fl).
  set (s0 := set_poll_task None (cancel t s)).
  assert (Hc0 : _http s0 = Some c) by (unfold s0; st_simpl; congruence).
  assert (Hu0 : _session_url s0 = Some u) by (unfold s0; st_simpl; congruence).
  assert (Hf0 : post_fails E s0).
  { unfold post_fails, s0 in *. st_simpl. now rewrite Fn. }
  destruct (destroy_remote_failure E s0 c u Hc0 Hu0 Ht Hf0) as [e He].
  set (s1 := tick_post
               (emit (EPost c u [("janus", VStr "destroy");
                                 ("transaction", VStr (rng E (n_id s0)))])
                  (tick_id s0))) in He.
  assert (Hc1 : _http s1 = Some c) by (unfold s1; st_simpl; exact Hc0).
  assert (Hu1 : _session_url s1 = Some u) by (unfold s1; st_simpl; exact Hu0).
  assert (Hr1 : post_reply E (n_post s1) = Json data).
  { unfold s1, s0. st_simpl. now rewrite Fn. }
  destruct (destroy_ok E s1 c u data Hc1 Hu1 Ht Hr1 Hj)
    as (s2 & Hd & Hp2 & Hs2 & Hh2 & _ & Hlog).
  exists e, s1, s2. split.
  { rewrite destroy_unfold, Hp. fold s0. now rewrite He. }
  split; [exact Hd|]. repeat split; try assumption.
  rewrite Hlog. unfold s1, s0. st_simpl. rewrite Fl, Fi, <- !app_assoc.
  reflexivity.
Qed.

(** A gateway that refuses the first destroy and confirms the second. *)
Lemma destroy_retry_completes_witness :
  let E := Mock.env [Json (Mock.success 1); Refused 503;
                     Json (VDict [("janus", VStr "success")])] [] in
  exists e s1 s2,
    destroy E (snd (create E (init Mock.root))) = (Raise e, s1) /\
    destroy E s1 = (Ok tt, s2) /\ _http s2 = None.
Proof.
  intros E.
  destruct (destroy_retry_completes E (snd (create E (init Mock.root)))
              0 0 "http://localhost:8088/janus/1"
              (VDict [("janus", VStr "success")]))
    as (e & s1 & s2 & H1 & H2 & _ & _ & Hh & _);
    try reflexivity; try (vm_compute; exact I).
  exists e, s1, s2. repeat split; assumption.
Defined.

(** X12. After a [create] that raised on a session that had no poll
    task and no URL, [destroy] closes the client that [create] opened
    and sends nothing. *)
Theorem destroy_after_failed_create :
  forall E s e s1,
    _poll_task s = None ->
    _session_url s = None ->
    create E s = (Raise e, s1) ->
    exists s2,
      destroy E s1 = (Ok tt, s2) /\
      _http s2 = None /\
      log s2 = log s1 ++ [EClose (n_http s)] /\
      n_post s2 = n_post s1.
Proof.
  intros E s e s1 Hp Hu Hc.
  apply create_raises in Hc as (Hh & Hp1 & Hu1 & _).
  rewrite Hp in Hp1. rewrite Hu in Hu1.
  rewrite destroy_unfold, Hp1, destroy_remote_skip by now rewrite Hu1.
  rewrite close_http_spec, Hh. eexists. split; [reflexivity|].
  st_simpl. repeat split.
Qed.

(** A gateway that is not there at all. *)
Lemma destroy_after_failed_create_witness :
  exists s2,
    destroy (Mock.env [] []) (snd (create (Mock.env [] []) (init Mock.root)))
    = (Ok tt, s2) /\
    _http s2 = None.
Proof.
  destruct (destroy_after_failed_create (Mock.env [] []) (init Mock.root)
              (ClientError 503)
              (snd (create (Mock.env [] []) (init Mock.root)))
              eq_refl eq_refl)
    as (s2 & Hd & Hh & _).
  - vm_compute. reflexivity.
  - exists s2. split; [exact Hd | exact Hh].
Defined.

(** X13. [create] on a session that is already active starts a second
    poll task and opens a second client without stopping or closing
    the first: both tasks run, the session refers to the new ones
    only, and a later [destroy], whatever it gives, leaves the first
    task running. *)
Theorem create_twice_leaks :
  forall E s t0 data sid,
    live s t0 ->
    post_reply E (n_post s) = Json data ->
    carries_id data sid ->
    exists s',
      create E s = (Ok tt, s') /\
      live s' t0 /\ live s' (length (tasks s)) /\ t0 <> length (tasks s) /\
      _poll_task s' = Some (length (tasks s)) /\
      _http s' = Some (n_http s) /\
      log s' = log s ++ [EOpen (n_http s);
                         EPost (n_http s) (_root_url s)
                           [("janus", VStr "create");
                            ("transaction", VStr (rng E (n_id s)))];
                         ESpawn (length (tasks s))] /\
      live (snd (destroy E s')) t0.
Proof.
  intros E s t0 data sid Hl Hr Hid.
  assert (Hlt : t0 < length (tasks s)) by (eapply lookup_lt_Some; exact Hl).
  eexists. split; [apply (create_ok E s data sid); assumption|].
  assert (Hl0 : (tasks s ++ [Running]) !! t0 = Some Running)
    by (rewrite lookup_app_l by exact Hlt; exact Hl).
  unfold live. st_simpl. repeat split.
  - exact Hl0.
  - rewrite lookup_app_r by lia. now rewrite Nat.sub_diag.
  - lia.
  - now rewrite <- !app_assoc.
  - apply destroy_live. unfold live. st_simpl. split; [exact Hl0|].
    intros [= Heq]. lia.
Qed.

(** Two calls of [create] in a row. *)
Lemma create_twice_leaks_witness :
  let E := Mock.env [Json (Mock.success 1); Json (Mock.success 2)] [] in
  exists s',
    create E (snd (create E (init Mock.root))) = (Ok tt, s') /\
    live s' 0 /\ live s' 1.
Proof.
  intros E.
  destruct (create_twice_leaks E (snd (create E (init Mock.root))) 0
              (Mock.success 2) (VInt 2))
    as (s' & Hc & H0 & H1 & _); try reflexivity.
  - split; [reflexivity|]. exists (VDict [("id", VInt 2)]). split; reflexivity.
  - exists s'. repeat split; assumption.
Defined.

(** ** The poll loop, turn after turn *)

Section PollFacts.
Variable E : Env.

(** Lines 147-151 on a message that is not an event. *)
Lemma poll_once_other s c u data j :
  _http s = Some c ->
  _session_url s = Some u ->
  get_reply E (n_get s) = Json data ->
  subscript data "janus" = Ok j ->
  py_eq j (VStr "event") = false ->
  poll_once E s
  = (Ok tt, emit (EPrint data)
              (tick_get (emit (EGet c u 1 (clock E (n_get s))) s))).
Proof.
  intros Hc Hu Hr Hj Hne. unfold poll_once.
  repeat (py_step; rewrite ?Hc, ?Hu, ?Hr, ?Hj, ?Hne). reflexivity.
Qed.

End PollFacts.

(** X14. Messages of any kind other than "event" (keep-alives and the
    like) are printed and dropped, turn after turn: after [n] such
    messages the poll task is still running, no inbox and no
    registration has changed, and [n] GETs were made. *)
Theorem poll_discards_other_kinds :
  forall E t n s c u,
    live s t ->
    _http s = Some c ->
    _session_url s = Some u ->
    (forall k, k < n -> other_kind (get_reply E (n_get s + k))) ->
    let s' := _poll E n t s in
    live s' t /\ heap s' = heap s /\ _plugins s' = _plugins s /\
    n_get s' = n_get s + n /\ n_post s' = n_post s /\
    length (log s') = length (log s) + 2 * n.
Proof.
  intros E t n. induction n as [|n IH]; intros s c u Hl Hc Hu Hk; simpl.
  - repeat split; try assumption; lia.
  - pose proof (Hk 0 ltac:(lia)) as H0. rewrite Nat.add_0_r in H0.
    destruct (get_reply E (n_get s)) as [|data] eqn:Hr; [contradiction|].
    destruct H0 as (j & Hj & Hne).
    assert (Hstep : poll_step E t s
                    = emit (EPrint data)
                        (tick_get (emit (EGet c u 1 (clock E (n_get s))) s))).
    { unfold poll_step. unfold live in Hl. rewrite Hl.
      now rewrite (poll_once_other E s c u data j). }
    rewrite Hstep.
    match goal with
    | |- context [_poll E n t ?s1] =>
        destruct (IH s1 c u) as (Hl' & Hh & Hp & Hg & Hpost & Hlog);
        [exact Hl | exact Hc | exact Hu
        |intros k Hlt; st_simpl;
         replace (S (n_get s) + k) with (n_get s + S k) by lia;
         apply Hk; lia
        |]
    end.
    st_simpl. rewrite Hh, Hp, Hg, Hpost, Hlog, !length_app. simpl.
    repeat split; try assumption; lia.
Qed.

(** Three keep-alives after the attach of the echo scenario. *)
Lemma poll_discards_other_kinds_witness :
  let E := Mock.env [Json (Mock.success 1); Json (Mock.success 10)] [] in
  let s := snd (attach E "echo" (snd (create E (init Mock.root)))) in
  live (_poll E 3 0 s) 0 /\ heap (_poll E 3 0 s) = heap s.
Proof.
  intros E s.
  destruct (poll_discards_other_kinds E 0 3 s 0 "http://localhost:8088/janus/1")
    as (Hl & Hh & _); try reflexivity.
  - intros k Hk.
    destruct k as [|[|[|k]]]; try lia;
      (exists (VStr "keepalive"); split; reflexivity).
  - split; assumption.
Defined.

(** X15. The poll loop has no exception handler: a GET that fails, a
    reply that is not an object, and an object without a "janus" key
    each end the poll task, with the client's error, [TypeError] and
    [KeyError] respectively, and nothing is delivered. *)
Theorem poll_ends_on_bad_reply :
  forall E t s c u,
    live s t ->
    _http s = Some c ->
    _session_url s = Some u ->
    let s' := poll_step E t s in
    (forall code,
        get_reply E (n_get s) = Refused code ->
        tasks s' !! t = Some (Crashed (ClientError code)) /\ heap s' = heap s) /\
    (forall data,
        get_reply E (n_get s) = Json data ->
        (forall d, data <> VDict d) ->
        tasks s' !! t = Some (Crashed TypeError) /\ heap s' = heap s) /\
    (forall d,
        get_reply E (n_get s) = Json (VDict d) ->
        Dict.get "janus" d = None ->
        tasks s' !! t = Some (Crashed (KeyError "janus")) /\ heap s' = heap s).
Proof.
  intros E t s c u Hl Hc Hu s'. unfold live in Hl.
  assert (Hlt : t < length (tasks s)) by (eapply lookup_lt_Some; exact Hl).
  unfold s', poll_step. rewrite Hl. unfold poll_once. repeat split.
  - repeat (py_step; rewrite ?Hc, ?Hu, ?H). now apply list_lookup_insert_eq.
  - repeat (py_step; rewrite ?Hc, ?Hu, ?H). reflexivity.
  - assert (Hs : subscript data "janus" = Raise TypeError).
    { destruct data; try reflexivity. exfalso. eapply H0. reflexivity. }
    repeat (py_step; rewrite ?Hc, ?Hu, ?H, ?Hs). now apply list_lookup_insert_eq.
  - assert (Hs : subscript data "janus" = Raise TypeError).
    { destruct data; try reflexivity. exfalso. eapply H0. reflexivity. }
    repeat (py_step; rewrite ?Hc, ?Hu, ?H, ?Hs). reflexivity.
  - repeat (py_step; unfold subscript; rewrite ?Hc, ?Hu, ?H, ?H0).
    now apply list_lookup_insert_eq.
  - repeat (py_step; unfold subscript; rewrite ?Hc, ?Hu, ?H, ?H0). reflexivity.
Qed.

(** The gateway gone after [create]: the first GET fails. *)
Lemma poll_ends_on_bad_reply_witness :
  let E := Mock.env [Json (Mock.success 1)] [Refused 502] in
  tasks (poll_step E 0 (snd (create E (init Mock.root)))) !! 0
  = Some (Crashed (ClientError 502)).
Proof.
  intros E.
  apply (proj1 (poll_ends_on_bad_reply E 0 (snd (create E (init Mock.root)))
                  0 "http://localhost:8088/janus/1" eq_refl eq_refl eq_refl)
           502).
  reflexivity.
Defined.

(** ** [send], from the POST to the answer *)

Section RoundTrip.
Variable E : Env.

Lemma janus_is_ack data :
  janus_is "ack" data = true ->
  exists j, subscript data "janus" = Ok j /\ py_eq j (VStr "ack") = true.
Proof.
  unfold janus_is. destruct (subscript data "janus") as [j|]; [eauto|discriminate].
Qed.

(** A suspended [send] whose inbox is empty is resumed by the turn
    that delivers an event to its handle, and gives what lines 91-93
    make of that event. *)
Lemma await_inbox_delivered sched h msg s c u t self data sender :
  _http s = Some c ->
  _session_url s = Some u ->
  heap s !! h = Some self ->
  _queue self = [] ->
  live s t ->
  get_reply E (n_get s) = Json data ->
  janus_is "event" data = true ->
  subscript data "sender" = Ok sender ->
  hashable sender = true ->
  Registry.find sender (_plugins s) = Some h ->
  let s1 := emit (EPrint data)
              (tick_get (emit (EGet c u 1 (clock E (n_get s))) s)) in
  await_inbox E (t :: sched) h msg s
  = (match subscript data "transaction" with
     | Ok tr =>
         match Dict.get "transaction" msg with
         | Some tr' => if py_eq tr tr' then Returned data else Raised AssertionError
         | None => Raised (KeyError "transaction")
         end
     | Raise e => Raised e
     end,
     set_heap (<[h := {| _queue := []; _url := _url self |}]> (heap s)) s1).
Proof.
  intros Hc Hu Hh Hq Hl Hr Hj Hs Hhash Hf s1.
  assert (Hlt : h < length (heap s)) by (eapply lookup_lt_Some; exact Hh).
  simpl. unfold send_recv at 1. rewrite Hh, Hq.
  unfold poll_step. unfold live in Hl. rewrite Hl.
  rewrite (poll_once_event E s c u data sender) by assumption.
  simpl. rewrite Hf, Hh, Hq. simpl. fold s1.
  set (s2 := set_queue h [data] s1).
  assert (Hh2 : heap s2 !! h = Some {| _queue := [data]; _url := _url self |}).
  { unfold s2, set_queue, s1. st_simpl. rewrite Hh. st_simpl.
    now apply list_lookup_insert_eq. }
  assert (Hrecv := send_recv_item h msg s2 _ data [] Hh2 eq_refl).
  assert (Hfinal : set_queue h [] s2
                   = set_heap (<[h := {| _queue := []; _url := _url self |}]> (heap s)) s1).
  { unfold set_queue at 1. rewrite Hh2. simpl.
    unfold s2, set_queue, s1. st_simpl. rewrite Hh. st_simpl.
    unfold set_heap. st_simpl. now rewrite list_insert_insert_eq. }
  rewrite Hfinal in Hrecv.
  destruct sched as [|t' sched]; simpl; rewrite Hrecv;
    destruct (subscript data "transaction") as [tr|e]; try reflexivity;
    destruct (Dict.get "transaction" msg) as [tr'|]; try reflexivity;
    destruct (py_eq tr tr'); reflexivity.
Qed.

End RoundTrip.

(** X16. The round trip.  A [send] on a handle with an empty inbox,
    with a payload that has no "transaction" of its own, acknowledged
    by the gateway and then answered in the next long-poll by an event
    whose sender is the handle's id and whose transaction is the id
    generated for the call, returns that event as soon as the poll
    task has had one turn, and leaves the inbox empty. *)
Theorem send_round_trip :
  forall E h payload sched s c u t self ack data sender tr,
    _http s = Some c ->
    _session_url s = Some u ->
    heap s !! h = Some self ->
    _queue self = [] ->
    live s t ->
    Dict.get "transaction" payload = None ->
    post_reply E (n_post s) = Json ack ->
    janus_is "ack" ack = true ->
    get_reply E (n_get s) = Json data ->
    janus_is "event" data = true ->
    subscript data "sender" = Ok sender ->
    hashable sender = true ->
    Registry.find sender (_plugins s) = Some h ->
    subscript data "transaction" = Ok tr ->
    py_eq tr (VStr (rng E (n_id s))) = true ->
    exists s',
      send E h payload (t :: sched) s = (Returned data, s') /\
      heap s' = <[h := {| _queue := []; _url := _url self |}]> (heap s) /\
      live s' t /\ n_get s' = S (n_get s) /\ n_post s' = S (n_post s).
Proof.
  intros E h payload sched s c u t self ack data sender tr
         Hc Hu Hh Hq Hl Hnone Hr Hack Hg Hev Hs Hhash Hf Htr Heq.
  apply janus_is_ack in Hack as (j & Hj & Hjack).
  unfold send.
  rewrite (send_post_ack E h payload s c self ack j) by assumption.
  rewrite (await_inbox_delivered E sched h _ _ c u t self data sender)
    by (st_simpl; assumption).
  rewrite Htr. unfold envelope.
  rewrite get_update_other by exact Hnone. simpl. rewrite Heq.
  eexists. split; [reflexivity|]. st_simpl. repeat split. exact Hl.
Qed.

(** The call of the echo scenario. *)
Lemma send_round_trip_witness :
  exists s',
    send Mock.echo 0 [("ping", VInt 1)] [0] Scenario.attached
    = (Returned (Mock.event (VInt 10) "cccccccccccc"), s').
Proof.
  destruct (send_round_trip Mock.echo 0 [("ping", VInt 1)] [] Scenario.attached
              0 "http://localhost:8088/janus/1" 0
              {| _queue := []; _url := "http://localhost:8088/janus/1/10" |}
              Mock.ack (Mock.event (VInt 10) "cccccccccccc") (VInt 10)
              (VStr "cccccccccccc"))
    as (s' & Hs & _); try reflexivity.
  exists s'. exact Hs.
Defined.

(** X17. An event for the handle that carries no "transaction" (a
    notification the gateway sends on its own) makes the [send] that
    is waiting on that handle raise [KeyError]; the event is consumed. *)
Theorem send_raises_on_unsolicited_event :
  forall E h payload sched s c u t self ack d sender,
    _http s = Some c ->
    _session_url s = Some u ->
    heap s !! h = Some self ->
    _queue self = [] ->
    live s t ->
    post_reply E (n_post s) = Json ack ->
    janus_is "ack" ack = true ->
    get_reply E (n_get s) = Json (VDict d) ->
    janus_is "event" (VDict d) = true ->
    Dict.get "sender" d = Some sender ->
    hashable sender = true ->
    Registry.find sender (_plugins s) = Some h ->
    Dict.get "transaction" d = None ->
    exists s',
      send E h payload (t :: sched) s = (Raised (KeyError "transaction"), s') /\
      heap s' = <[h := {| _queue := []; _url := _url self |}]> (heap s).
Proof.
  intros E h payload sched s c u t self ack d sender
         Hc Hu Hh Hq Hl Hr Hack Hg Hev Hs Hhash Hf Hnone.
  apply janus_is_ack in Hack as (j & Hj & Hjack).
  unfold send.
  rewrite (send_post_ack E h payload s c self ack j) by assumption.
  rewrite (await_inbox_delivered E sched h _ _ c u t self (VDict d) sender)
    by (st_simpl; try assumption; unfold subscript; now rewrite Hs).
  unfold subscript. rewrite Hnone.
  eexists. split; [reflexivity|]. reflexivity.
Qed.

(** A "joined" notification instead of the answer. *)
Lemma send_raises_on_unsolicited_event_witness :
  let E := Mock.env [Json (Mock.success 1); Json (Mock.success 10); Json Mock.ack]
                    [Json (VDict [("janus", VStr "event"); ("sender", VInt 10)])] in
  let s := snd (attach E "echo" (snd (create E (init Mock.root)))) in
  exists s',
    send E 0 [("ping", VInt 1)] [0] s = (Raised (KeyError "transaction"), s').
Proof.
  intros E s.
  destruct (send_raises_on_unsolicited_event E 0 [("ping", VInt 1)] [] s
              0 "http://localhost:8088/janus/1" 0
              {| _queue := []; _url := "http://localhost:8088/janus/1/10" |}
              Mock.ack [("janus", VStr "event"); ("sender", VInt 10)] (VInt 10))
    as (s' & Hs & _); try reflexivity.
  exists s'. exact Hs.
Defined.

(** X18. Once no poll task that gets a turn is running (the loop has
    ended on an error or was cancelled), an acknowledged [send] on an
    empty inbox is never resumed: it is still suspended when the
    schedule is used up, however long that is. *)
Theorem send_pending_without_poll :
  forall E h payload sched s c self ack,
    _http s = Some c ->
    heap s !! h = Some self ->
    _queue self = [] ->
    post_reply E (n_post s) = Json ack ->
    janus_is "ack" ack = true ->
    (forall t, In t sched -> ~ live s t) ->
    exists s',
      send E h payload sched s = (Pending, s') /\
      heap s' = heap s /\ n_get s' = n_get s.
Proof.
  intros E h payload sched s c self ack Hc Hh Hq Hr Hack Hdead.
  apply janus_is_ack in Hack as (j & Hj & Hjack).
  unfold send.
  rewrite (send_post_ack E h payload s c self ack j) by assumption.
  match goal with
  | |- context [await_inbox E sched h ?m ?s0] =>
      assert (Hwait : await_inbox E sched h m s0 = (Pending, s0));
      [|rewrite Hwait; eexists; split; [reflexivity|]; st_simpl; split; reflexivity];
      assert (Hh0 : heap s0 !! h = Some self) by (st_simpl; exact Hh);
      assert (Hd0 : forall t, In t sched -> tasks s0 !! t <> Some Running)
        by (intros t Ht; st_simpl; apply Hdead, Ht);
      generalize dependent s0
  end.
  intros s0 Hh0 Hd0.
  induction sched as [|t sched IH]; simpl; unfold send_recv; rewrite Hh0, Hq.
  - reflexivity.
  - rewrite poll_step_idle by (apply Hd0; now left).
    fold (send_recv h (envelope (rng E (n_id s)) payload) s0).
    apply IH.
    + intros t' Ht'. apply Hdead. now right.
    + intros t' Ht'. apply Hd0. now right.
Qed.

(** After the first GET has failed, twenty more turns change nothing. *)
Lemma send_pending_without_poll_witness :
  let E := Mock.env [Json (Mock.success 1); Json (Mock.success 10); Json Mock.ack]
                    [Refused 502] in
  let s := poll_step E 0 (snd (attach E "echo" (snd (create E (init Mock.root))))) in
  exists s', send E 0 [("ping", VInt 1)] (repeat 0 20) s = (Pending, s').
Proof.
  intros E s.
  destruct (send_pending_without_poll E 0 [("ping", VInt 1)] (repeat 0 20) s 0
              {| _queue := []; _url := "http://localhost:8088/janus/1/10" |}
              Mock.ack)
    as (s' & Hs & _); try reflexivity.
  - intros t Ht. apply repeat_spec in Ht as ->. unfold live. vm_compute.
    discriminate.
  - exists s'. exact Hs.
Defined.

(** X19. After a [destroy] that returned, [send] on any handle raises
    [AttributeError] (the session has no client) before anything is
    sent and without touching an inbox. *)
Theorem send_after_destroy :
  forall E s0 s h self payload sched,
    destroy E s0 = (Ok tt, s) ->
    heap s !! h = Some self ->
    exists s',
      send E h payload sched s = (Raised AttributeError, s') /\
      log s' = log s /\ heap s' = heap s /\ n_post s' = n_post s.
Proof.
  intros E s0 s h self payload sched Hd Hh.
  apply destroy_returns in Hd as (_ & _ & _ & Hc & _).
  unfold send, send_post.
  repeat (py_step; rewrite ?Hh, ?Hc).
  eexists. split; [reflexivity|]. repeat split.
Qed.

(** [send] on the handle of a session that has been torn down. *)
Lemma send_after_destroy_witness :
  exists s',
    send Scenario.teardown 0 [("ping", VInt 1)] [0] Scenario.torn_down
    = (Raised AttributeError, s').
Proof.
  destruct (send_after_destroy Scenario.teardown Scenario.teardown_attached
              Scenario.torn_down 0
              {| _queue := []; _url := "http://localhost:8088/janus/1/10" |}
              [("ping", VInt 1)] [0])
    as (s' & Hs & _).
  - vm_compute. reflexivity.
  - reflexivity.
  - exists s'. exact Hs.
Defined.

(** ** The callers: [run], [publish], [subscribe] *)

Lemma sent_has_no_envelope_key payload :
  Caller.sent payload ->
  NoDup (Dict.keys payload) /\
  Dict.get "janus" payload = None /\ Dict.get "transaction" payload = None.
Proof.
  intros [room|audio sdp type|room feed|sdp type]; simpl;
    (split; [|split; reflexivity]);
    repeat (apply NoDup_cons; split;
            [intros Hin;
             repeat (apply elem_of_cons in Hin as [Hin|Hin]; [discriminate|]);
             inversion Hin|]);
    apply NoDup_nil_2.
Qed.

(** X20. The four messages that [run], [publish] and [subscribe] pass
    to [send] name neither "janus" nor "transaction": what is posted
    is the two fields followed by the payload, and an event that such
    a [send] returns carries the transaction id generated for that
    call. *)
Theorem callers_correlate :
  forall E h payload sched s,
    Caller.sent payload ->
    envelope (rng E (n_id s)) payload
    = [("janus", VStr "message"); ("transaction", VStr (rng E (n_id s)))]
        ++ payload /\
    forall r s',
      send E h payload sched s = (Returned r, s') ->
      exists t, subscript r "transaction" = Ok t /\
                py_eq t (VStr (rng E (n_id s))) = true.
Proof.
  intros E h payload sched s Hsent.
  destruct (sent_has_no_envelope_key payload Hsent) as (Hnd & Hj & Ht).
  split.
  - unfold envelope. apply update_disjoint; [exact Hnd|].
    intros k Hk. simpl.
    destruct (String.eqb_spec k "janus") as [->|_].
    { apply get_None_keys in Hj. contradiction. }
    destruct (String.eqb_spec k "transaction") as [->|_]; [|reflexivity].
    apply get_None_keys in Ht. contradiction.
  - intros r s' Hsend. unfold send in Hsend.
    destruct (send_post E h payload s) as [[msg|e] s0] eqn:Hpost; [|discriminate].
    apply send_post_message in Hpost. subst msg.
    apply await_inbox_returned in Hsend
      as (k & self & rest & t & t' & _ & _ & _ & Hrt & Hget & Heq).
    unfold envelope in Hget. rewrite get_update_other in Hget by exact Ht.
    simpl in Hget. injection Hget as <-. eauto.
Qed.

(** [run] joins room 1234; the answer comes back. *)
Lemma callers_correlate_witness :
  exists t,
    subscript (Mock.event (VInt 10) "cccccccccccc") "transaction" = Ok t /\
    py_eq t (VStr "cccccccccccc") = true.
Proof.
  destruct (callers_correlate Mock.echo 0 (Caller.join_publisher 1234) [0]
              Scenario.attached (Caller.sent_join_publisher 1234))
    as [_ Hret].
  apply (Hret (Mock.event (VInt 10) "cccccccccccc")
              (snd (send Mock.echo 0 (Caller.join_publisher 1234) [0]
                      Scenario.attached))).
  vm_compute. reflexivity.
Defined.

(** X21. The first three requests of [run]: when the gateway answers
    [create] with session id [sid], [attach] with plugin id [pid] and
    the message with an ack, the three POSTs go to the root URL, to
    root/sid and to root/sid/pid, in that order and through the one
    client that [create] opened, with three successive transaction
    ids. *)
Theorem session_urls_chain :
  forall E s name payload d1 sid d2 pid ack,
    post_reply E (n_post s) = Json d1 ->
    carries_id d1 sid ->
    post_reply E (S (n_post s)) = Json d2 ->
    carries_id d2 pid ->
    hashable pid = true ->
    post_reply E (S (S (n_post s))) = Json ack ->
    janus_is "ack" ack = true ->
    let c := n_http s in
    let root := _root_url s in
    let su := root +:+ "/" +:+ py_str E sid in
    exists s1 s2 msg s3,
      create E s = (Ok tt, s1) /\
      attach E name s1 = (Ok (length (heap s)), s2) /\
      send_post E (length (heap s)) payload s2 = (Ok msg, s3) /\
      msg = envelope (rng E (S (S (n_id s)))) payload /\
      log s3 = log s
               ++ [EOpen c;
                   EPost c root [("janus", VStr "create");
                                 ("transaction", VStr (rng E (n_id s)))];
                   ESpawn (length (tasks s));
                   EPost c su [("janus", VStr "attach"); ("plugin", VStr name);
                               ("transaction", VStr (rng E (S (n_id s))))];
                   EPost c (su +:+ "/" +:+ py_str E pid) msg].
Proof.
  intros E s name payload d1 sid d2 pid ack H1 Hid1 H2 Hid2 Hhash H3 Hack
         c root su.
  apply janus_is_ack in Hack as (j & Hj & Hjack).
  eexists _, _, _, _.
  split; [apply (create_ok E s d1 sid); assumption|].
  split.
  { rewrite (attach_ok E name _ c su d2 pid); st_simpl;
      try reflexivity; assumption. }
  split.
  { apply (send_post_ack E _ payload _ c
             {| _queue := []; _url := su +:+ "/" +:+ py_str E pid |} ack j);
      st_simpl; try assumption; try reflexivity.
    rewrite lookup_app_r by lia. now rewrite Nat.sub_diag. }
  st_simpl. split; [reflexivity|].
  rewrite <- !app_assoc. reflexivity.
Qed.

(** The requests of the echo scenario. *)
Lemma session_urls_chain_witness :
  exists s1 s2 msg s3,
    create Mock.echo (init Mock.root) = (Ok tt, s1) /\
    attach Mock.echo "echo" s1 = (Ok 0, s2) /\
    send_post Mock.echo 0 [("ping", VInt 1)] s2 = (Ok msg, s3).
Proof.
  destruct (session_urls_chain Mock.echo (init Mock.root) "echo"
              [("ping", VInt 1)] (Mock.success 1) (VInt 1)
              (Mock.success 10) (VInt 10) Mock.ack)
    as (s1 & s2 & msg & s3 & Hc & Ha & Hs & _); try reflexivity.
  - split; [reflexivity|]. exists (VDict [("id", VInt 1)]). split; reflexivity.
  - split; [reflexivity|]. exists (VDict [("id", VInt 10)]). split; reflexivity.
  - exists s1, s2, msg, s3. repeat split; assumption.
Defined.
